(** * etoad: workflow engine and signal-analysis pipeline

    A shallow embedding of the parts of the etoad package that its
    specification makes claims about:

    - [etoad/DataAnalyzer/AnalysisUtils/significant_digits.py]
    - [etoad/DataAnalyzer/AnalysisUtils/noise_estimation.py]
    - [etoad/DataAnalyzer/AnalysisUtils/baseline_detection.py]
    - [etoad/DataAnalyzer/AnalysisUtils/peak_selection.py]
    - [etoad/DataAnalyzer/Methods/PulseTechniqueAnalyzer.py]
    - [etoad/DataAnalyzer/Methods/CVAnalyzer.py]
    - [etoad/WorkflowManager.py]

    Part I holds the definitions, one module per source file; Part II
    holds the lemmas and theorems.

    Conventions.  Python code that can raise returns a [result]; code that
    drives the instruments is written in a state-and-exception monad whose
    state keeps the world of the external devices and the trace of the
    calls made to them.  scipy and numpy kernels that the package only
    calls ([find_peaks], [ConvexHull], [np.interp]) are parameters. *)

From Stdlib Require Import ZArith QArith Qround Qabs Lia List String.
From stdpp Require Import gmap strings list.

(* ===================================================================== *)
(** * Part I: the embedding                                               *)
(* ===================================================================== *)

(** ** Python values that raise *)

Module Py.

(** The exception classes that occur in the modelled code.
    [SkipExecution] and [StopExecution] are the two subclasses of
    [WorkflowError] of [etoad/Utils/Exceptions.py]; [ExternalError]
    stands for whatever an instrument driver raises. *)
Inductive exn : Type :=
| ValueError
| TypeError
| KeyError
| IndexError
| OverflowError
| SkipExecution
| StopExecution
| ExternalError (what : string).

Inductive result (A : Type) : Type :=
| Ok (a : A)
| Raise (e : exn).
Arguments Ok {A} a.
Arguments Raise {A} e.

Definition rbind {A B} (r : result A) (k : A -> result B) : result B :=
  match r with
  | Ok a => k a
  | Raise e => Raise e
  end.

Definition is_ok {A} (r : result A) : bool :=
  match r with Ok _ => true | Raise _ => false end.

(** [for x in xs: acc = body(acc, x)] where the body may raise. *)
Fixpoint rfold {A B} (body : A -> B -> result A) (acc : A) (xs : list B)
  : result A :=
  match xs with
  | [] => Ok acc
  | x :: xs' => rbind (body acc x) (fun acc' => rfold body acc' xs')
  end.

(** [[f(x) for x in xs]] where [f] may raise. *)
Fixpoint rmap {A B} (f : A -> result B) (xs : list A) : result (list B) :=
  match xs with
  | [] => Ok []
  | x :: xs' =>
      rbind (f x) (fun y => rbind (rmap f xs') (fun ys => Ok (y :: ys)))
  end.

(** [xs[i]] on a Python list or a numpy axis: negative indices count from
    the end, anything else out of range raises [IndexError]. *)
Definition subscript {A} (xs : list A) (i : Z) : result A :=
  let n := Z.of_nat (length xs) in
  let j := (if i <? 0 then i + n else i)%Z in
  if (j <? 0)%Z then Raise IndexError
  else match xs !! Z.to_nat j with
       | Some x => Ok x
       | None => Raise IndexError
       end.

End Py.

(** [x ← r; k] is stdpp's notation for [rbind r (fun x => k)]. *)
#[global] Instance result_ret : MRet Py.result := @Py.Ok.
#[global] Instance result_bind : MBind Py.result :=
  fun A B k r => Py.rbind r k.
#[global] Instance result_fmap : FMap Py.result :=
  fun A B f r => Py.rbind r (fun a => Py.Ok (f a)).

(** ** Floating-point numbers *)

Module PyFloat.
Import Py.
#[local] Open Scope Q_scope.

(** A float is a rational or one of the three special values.  Every
    finite IEEE double is a rational and comparisons of finite doubles
    agree with those of the rationals they denote.  Arithmetic on finite
    values is exact here: the rounding error of an addition or division
    is not modelled, the rounding of [round] and of literals is
    ([b64]). *)
Inductive pyfloat : Type :=
| Finite (q : Q)
| PInf
| NInf
| NaN.

Definition is_nan (x : pyfloat) : bool :=
  match x with NaN => true | _ => false end.

Definition is_finite (x : pyfloat) : bool :=
  match x with Finite _ => true | _ => false end.

Definition fabs (x : pyfloat) : pyfloat :=
  match x with
  | Finite q => Finite (Qabs q)
  | PInf | NInf => PInf
  | NaN => NaN
  end.

Definition fneg (x : pyfloat) : pyfloat :=
  match x with
  | Finite q => Finite (- q)
  | PInf => NInf
  | NInf => PInf
  | NaN => NaN
  end.

Definition Qltb (a b : Q) : bool := negb (Qle_bool b a).

Definition fsign (q : Q) : comparison := Qcompare q 0.

Definition fadd (x y : pyfloat) : pyfloat :=
  match x, y with
  | NaN, _ | _, NaN => NaN
  | PInf, NInf | NInf, PInf => NaN
  | PInf, _ | _, PInf => PInf
  | NInf, _ | _, NInf => NInf
  | Finite a, Finite b => Finite (Qred (a + b))
  end.

(** numpy division: no [ZeroDivisionError], the IEEE special values
    instead. *)
Definition fdiv (x y : pyfloat) : pyfloat :=
  match x, y with
  | NaN, _ | _, NaN => NaN
  | Finite a, Finite b =>
      match fsign b with
      | Eq => match fsign a with Eq => NaN | Gt => PInf | Lt => NInf end
      | _ => Finite (Qred (a / b))
      end
  | Finite _, (PInf | NInf) => Finite 0
  | (PInf | NInf), (PInf | NInf) => NaN
  | PInf, Finite b => match fsign b with Lt => NInf | _ => PInf end
  | NInf, Finite b => match fsign b with Lt => PInf | _ => NInf end
  end.

Definition fmul (x y : pyfloat) : pyfloat :=
  match x, y with
  | NaN, _ | _, NaN => NaN
  | Finite a, Finite b => Finite (Qred (a * b))
  | Finite a, PInf | PInf, Finite a =>
      match fsign a with Eq => NaN | Gt => PInf | Lt => NInf end
  | Finite a, NInf | NInf, Finite a =>
      match fsign a with Eq => NaN | Gt => NInf | Lt => PInf end
  | PInf, PInf | NInf, NInf => PInf
  | PInf, NInf | NInf, PInf => NInf
  end.

(** [a < b] and [a > b] on floats: false as soon as a NaN is involved. *)
Definition fltb (x y : pyfloat) : bool :=
  match x, y with
  | NaN, _ | _, NaN => false
  | Finite a, Finite b => Qltb a b
  | NInf, (Finite _ | PInf) => true
  | Finite _, PInf => true
  | _, _ => false
  end.

Definition fgtb (x y : pyfloat) : bool := fltb y x.

(** [int(x)]: truncation towards zero. *)
Definition Qtruncate (q : Q) : Z :=
  if Qle_bool 0 q then Qfloor q else Qceiling q.

Definition to_int (x : pyfloat) : result Z :=
  match x with
  | Finite q => Ok (Qtruncate q)
  | PInf | NInf => Raise OverflowError
  | NaN => Raise ValueError
  end.

(** Rounding of a rational to the nearest integer, ties to even. *)
Definition round_half_even (q : Q) : Z :=
  let f := Qfloor q in
  match Qcompare (q - inject_Z f) (1 # 2) with
  | Lt => f
  | Gt => (f + 1)%Z
  | Eq => if Z.even f then f else (f + 1)%Z
  end.

(** [floor(log2 a)] for [a > 0], from the bit lengths of numerator and
    denominator. *)
Definition floor_log2 (a : Q) : Z :=
  let k := (Z.log2 (Qnum a) - Z.log2 (Zpos (Qden a)))%Z in
  if Qle_bool (Qpower 2 k) a then k else (k - 1)%Z.

(** The binary64 value nearest to a rational (ties to even, subnormals
    included); [None] when it is beyond the largest double. *)
Definition b64 (q : Q) : option Q :=
  match fsign q with
  | Eq => Some 0
  | s =>
      let a := Qabs q in
      let e := Z.max (floor_log2 a) (-1022) in
      let ulp := Qpower 2 (e - 52) in
      let v := inject_Z (round_half_even (a / ulp)) * ulp in
      if Qle_bool (Qpower 2 1024) v then None
      else Some (Qred (match s with Lt => - v | _ => v end))
  end.

(** A decimal literal of the source text, e.g. [0.0034567]. *)
Definition literal (q : Q) : pyfloat :=
  match b64 q with
  | Some v => Finite v
  | None => match fsign q with Lt => NInf | _ => PInf end
  end.

End PyFloat.

(** ** significant_digits.py *)

Module SignificantDigits.
Import Py PyFloat.
#[local] Open Scope Q_scope.

(** [search_exponent fuel a e]: the least [e' >= e] with
    [a < 10^(e'+1)], looking at most [fuel] exponents ahead. *)
Fixpoint search_exponent (fuel : nat) (a : Q) (e : Z) : Z :=
  match fuel with
  | O => e
  | S fuel' =>
      if Qltb a (Qpower 10 (e + 1)) then e
      else search_exponent fuel' a (e + 1)
  end.

(** [floor(log10 a)] for a rational [a > 0].  The search starts below the
    answer ([a >= 1/den a > 10^-(bits of den a)]) and has room for every
    decimal digit of numerator and denominator.  The C library's [log10]
    agrees with the exact value except within one rounding error below a
    power of ten. *)
Definition floor_log10 (a : Q) : Z :=
  let bn := Z.log2 (Qnum a) in
  let bd := Z.log2 (Zpos (Qden a)) in
  search_exponent (Z.to_nat (bn + bd + 3)) a (- (bd + 1)).

(** [floor(log10(abs(number)))]: [math.log10] raises [ValueError] at
    zero and returns its argument at NaN and infinity, where
    [math.floor] raises [ValueError] and [OverflowError]. *)
Definition floor_log10_abs (number : pyfloat) : result Z :=
  match fabs number with
  | Finite a =>
      match fsign a with
      | Eq => Raise ValueError
      | _ => Ok (floor_log10 a)
      end
  | PInf | NInf => Raise OverflowError
  | NaN => Raise ValueError
  end.

(** [round(number, ndigits)]: the decimal with [ndigits] places nearest
    to the exact value (ties to even), then the double nearest to that
    decimal; [OverflowError] when that double does not exist. *)
Definition round_decimal (q : Q) (ndigits : Z) : Q :=
  let scale := Qpower 10 ndigits in
  inject_Z (round_half_even (q * scale)) / scale.

Definition py_round (number : pyfloat) (ndigits : Z) : result pyfloat :=
  match number with
  | Finite q =>
      match b64 (round_decimal q ndigits) with
      | Some v => Ok (Finite v)
      | None => Raise OverflowError
      end
  | other => Ok other
  end.

(** [[
    def significant_digits(number, no_digits=3):
        no_decimal_places = -int(floor(log10(abs(number)))) + no_digits - 1
        return float(round(number, no_decimal_places))
    ]] *)
Definition significant_digits (number : pyfloat) (no_digits : Z)
  : result pyfloat :=
  e ← floor_log10_abs number;
  py_round number (- e + no_digits - 1).

End SignificantDigits.

(** ** numpy and scipy *)

Module Numeric.
Import Py PyFloat.
#[local] Open Scope Q_scope.

(** The second value of [scipy.signal.find_peaks]: a dictionary from
    property names ([peak_heights], [widths], [left_ips], ...) to one
    array entry per peak. *)
Abbreviation peak_properties := (gmap string (list pyfloat)).

(** The kernels of scipy and numpy that the package calls and that are
    not re-implemented here.
    - [find_peaks data height width rel_height] is
      [scipy.signal.find_peaks(data, height=, width=, rel_height=)];
    - [convex_hull_vertices points] is
      [scipy.spatial.ConvexHull(points).vertices];
    - [interp x xp fp] is [numpy.interp(x, xp, fp)]. *)
Record kernels : Type := {
  find_peaks :
    list pyfloat -> option pyfloat -> option pyfloat -> pyfloat ->
    list nat * peak_properties;
  convex_hull_vertices : list (pyfloat * pyfloat) -> result (list nat);
  interp :
    list pyfloat -> list pyfloat -> list pyfloat -> result (list pyfloat)
}.

(** [a[indices]] with an index array. *)
Definition take_indices {A} (a : list A) (indices : list nat)
  : result (list A) :=
  rmap (fun i => subscript a (Z.of_nat i)) indices.

(** [a[:, c]] on a two-dimensional array kept as a list of rows. *)
Definition column {A} (a : list (list A)) (c : Z) : result (list A) :=
  rmap (fun row => subscript row c) a.

(** [np.setdiff1d(a, b)]: the sorted, unique values of [a] that are not
    in [b]. *)
Fixpoint insert_nat (n : nat) (l : list nat) : list nat :=
  match l with
  | [] => [n]
  | m :: l' =>
      if (n <? m)%nat then n :: l
      else if (n =? m)%nat then l
      else m :: insert_nat n l'
  end.

Definition unique_sorted (l : list nat) : list nat :=
  foldr insert_nat [] l.

Definition setdiff1d (a b : list nat) : list nat :=
  unique_sorted (filter (fun i => i ∉ b) a).

Definition fsum (l : list pyfloat) : pyfloat :=
  foldl fadd (Finite 0) l.

(** [np.mean]: the sum over the count; NaN (and a warning) on an empty
    array. *)
Definition mean (l : list pyfloat) : pyfloat :=
  fdiv (fsum l) (Finite (inject_Z (Z.of_nat (length l)))).

(** [np.flip] of a one-dimensional array. *)
Definition flip {A} (l : list A) : list A := reverse l.

(** [<=] on floats without NaN. *)
Definition fleb (x y : pyfloat) : bool := negb (fltb y x).

Fixpoint insert_float (x : pyfloat) (l : list pyfloat) : list pyfloat :=
  match l with
  | [] => [x]
  | y :: l' => if fleb x y then x :: l else y :: insert_float x l'
  end.

Definition sort_floats (l : list pyfloat) : list pyfloat :=
  foldr insert_float [] l.

(** [np.median]: NaN as soon as the array is empty or holds a NaN. *)
Definition median (l : list pyfloat) : pyfloat :=
  if existsb is_nan l then NaN
  else
    let s := sort_floats l in
    let n := length l in
    match n with
    | O => NaN
    | _ =>
        if Nat.odd n then default NaN (s !! (n / 2)%nat)
        else fdiv (fadd (default NaN (s !! (n / 2 - 1)%nat))
                        (default NaN (s !! (n / 2)%nat)))
                  (Finite 2)
    end.

(** [a.argmax()]: the first index of the maximum, the first NaN if there
    is one; [ValueError] on an empty array. *)
Fixpoint argmax_from (best : nat) (bestv : pyfloat) (i : nat)
    (l : list pyfloat) : nat :=
  match l with
  | [] => best
  | v :: l' =>
      if is_nan bestv then best
      else if is_nan v || fltb bestv v
           then argmax_from i v (S i) l'
           else argmax_from best bestv (S i) l'
  end.

Definition argmax (l : list pyfloat) : result nat :=
  match l with
  | [] => Raise ValueError
  | v :: l' => Ok (argmax_from 0%nat v 1%nat l')
  end.

(** [argmax] and [argmin] of an array of indices. *)
Fixpoint arg_best (better : nat -> nat -> bool) (best : nat) (bestv : nat)
    (i : nat) (l : list nat) : nat :=
  match l with
  | [] => best
  | v :: l' =>
      if better v bestv then arg_best better i v (S i) l'
      else arg_best better best bestv (S i) l'
  end.

Definition argmax_nat (l : list nat) : result nat :=
  match l with
  | [] => Raise ValueError
  | v :: l' => Ok (arg_best (fun a b => (b <? a)%nat) 0%nat v 1%nat l')
  end.

Definition argmin_nat (l : list nat) : result nat :=
  match l with
  | [] => Raise ValueError
  | v :: l' => Ok (arg_best (fun a b => (a <? b)%nat) 0%nat v 1%nat l')
  end.

(** [np.roll(a, -k)] for [0 <= k]: rotation to the left. *)
Definition roll_left {A} (a : list A) (k : nat) : list A :=
  match a with
  | [] => []
  | _ => let k := (k mod length a)%nat in drop k a ++ take k a
  end.

(** [np.column_stack((x, y))] of two one-dimensional arrays. *)
Definition column_stack (x y : list pyfloat)
  : result (list (pyfloat * pyfloat)) :=
  if (length x =? length y)%nat then Ok (zip x y) else Raise ValueError.

End Numeric.

(** ** A plain implementation of the kernels

    [find_peaks], [ConvexHull] and [np.interp] written out on exact
    numbers, to run the model on examples.  Peaks are the strict local
    maxima; the width of a peak counts the neighbouring samples that stay
    above [1 - rel_height] of its height (scipy measures against the
    prominence and interpolates); the hull is the monotone chain, counter
    clockwise from the leftmost point.  No theorem depends on these
    choices: the theorems hold for every [kernels]. *)

Module SimpleKernels.
Import Py PyFloat Numeric.
#[local] Open Scope Q_scope.

Fixpoint maxima_from (i : nat) (prev : pyfloat) (l : list pyfloat)
  : list nat :=
  match l with
  | [] => []
  | cur :: rest =>
      match rest with
      | [] => []
      | next :: _ =>
          if fltb prev cur && fltb next cur
          then i :: maxima_from (S i) cur rest
          else maxima_from (S i) cur rest
      end
  end.

Definition local_maxima (data : list pyfloat) : list nat :=
  match data with
  | [] => []
  | first :: rest => maxima_from 1 first rest
  end.

Fixpoint run_above (level : pyfloat) (l : list pyfloat) : nat :=
  match l with
  | [] => O
  | v :: l' => if fleb level v then S (run_above level l') else O
  end.

Definition of_nat (n : nat) : pyfloat := Finite (inject_Z (Z.of_nat n)).

(** Apex, left and right end of the peak at index [i]. *)
Definition measure_peak (data : list pyfloat) (rel_height : pyfloat)
    (i : nat) : pyfloat * nat * nat :=
  let apex := default NaN (data !! i) in
  let level := fmul apex (fadd (Finite 1) (fneg rel_height)) in
  let l := run_above level (reverse (take i data)) in
  let r := run_above level (drop (S i) data) in
  (apex, (i - l)%nat, (i + r)%nat).

Definition simple_find_peaks (data : list pyfloat)
    (height width : option pyfloat) (rel_height : pyfloat)
  : list nat * peak_properties :=
  let keep i :=
    let '(apex, l, r) := measure_peak data rel_height i in
    match height with Some h => fleb h apex | None => true end
    && match width with Some w => fleb w (of_nat (r - l)) | None => true end in
  let peaks := filter (fun i => keep i = true) (local_maxima data) in
  let measured := map (measure_peak data rel_height) peaks in
  let with_heights (d : peak_properties) :=
    match height with
    | Some _ => <["peak_heights" := map (fun m => m.1.1) measured]> d
    | None => d
    end in
  let with_widths (d : peak_properties) :=
    match width with
    | Some _ =>
        <["widths" := map (fun m => of_nat (m.2 - m.1.2)) measured]>
          (<["left_ips" := map (fun m => of_nat m.1.2) measured]>
             (<["right_ips" := map (fun m => of_nat m.2) measured]> d))
    | None => d
    end in
  (peaks, with_widths (with_heights ∅)).

(** A point with its index in the input. *)
Definition point : Type := Q * Q * nat.

Definition cross (o a b : point) : Q :=
  (a.1.1 - o.1.1) * (b.1.2 - o.1.2) - (a.1.2 - o.1.2) * (b.1.1 - o.1.1).

Definition point_before (a b : point) : bool :=
  Qltb a.1.1 b.1.1 || (Qeq_bool a.1.1 b.1.1 && Qltb a.1.2 b.1.2).

Fixpoint insert_point (p : point) (l : list point) : list point :=
  match l with
  | [] => [p]
  | q :: l' => if point_before p q then p :: l else q :: insert_point p l'
  end.

(** The chain so far, last point first. *)
Fixpoint push (chain : list point) (p : point) : list point :=
  match chain with
  | b :: rest =>
      match rest with
      | a :: _ => if Qle_bool (cross a b p) 0 then push rest p
                  else p :: chain
      | [] => p :: chain
      end
  | [] => [p]
  end.

Definition chain (points : list point) : list point :=
  reverse (foldl push [] points).

Definition finite_point (p : pyfloat * pyfloat) (i : nat) : option point :=
  match p with
  | (Finite x, Finite y) => Some (x, y, i)
  | _ => None
  end.

Definition simple_convex_hull (points : list (pyfloat * pyfloat))
  : result (list nat) :=
  match mapM (fun '(i, p) => finite_point p i)
             (zip (seq 0 (length points)) points) with
  | None => Raise (ExternalError "QhullError")
  | Some pts =>
      let sorted := foldr insert_point [] pts in
      let lower := chain sorted in
      let upper := chain (reverse sorted) in
      let hull := removelast lower ++ removelast upper in
      if (length hull <? 3)%nat then Raise (ExternalError "QhullError")
      else Ok (map (fun p => p.2) hull)
  end.

Fixpoint interp_at (x : pyfloat) (pts : list (pyfloat * pyfloat))
  : pyfloat :=
  match pts with
  | [] => NaN
  | (x0, y0) :: rest =>
      match rest with
      | [] => y0
      | (x1, y1) :: _ =>
          if fltb x x1 then
            if fleb x x0 then y0
            else fadd y0 (fdiv (fmul (fadd x (fneg x0)) (fadd y1 (fneg y0)))
                               (fadd x1 (fneg x0)))
          else interp_at x rest
      end
  end.

Definition simple_interp (x xp fp : list pyfloat) : result (list pyfloat) :=
  match xp with
  | [] => Raise ValueError
  | _ => if (length xp =? length fp)%nat
         then Ok (map (fun v => interp_at v (zip xp fp)) x)
         else Raise ValueError
  end.

Definition simple_kernels : kernels :=
  {| find_peaks := simple_find_peaks;
     convex_hull_vertices := simple_convex_hull;
     interp := simple_interp |}.

End SimpleKernels.

(** ** noise_estimation.py *)

Module NoiseEstimation.
Import Py PyFloat Numeric.

Section WithKernels.
Context (K : kernels).

(** The indices of the noise peaks: lines 17 to 19. *)
Definition noise_peaks (data : list pyfloat) (min_peak_width : pyfloat)
  : list nat :=
  let all_peaks := (find_peaks K data None None (Finite (1 # 2))).1 in
  let signal_peaks :=
    (find_peaks K data None (Some min_peak_width) (Finite (1 # 2))).1 in
  setdiff1d all_peaks signal_peaks.

(** [[
    def estimate_noise(data, min_peak_width):
        all_peaks, _ = find_peaks(data)
        signal_peaks, _ = find_peaks(data, width=min_peak_width)
        noise_peaks = np.setdiff1d(all_peaks, signal_peaks)
        average_noise = np.mean(data[noise_peaks])
        if np.isnan(average_noise):
            return None
        return average_noise
    ]]
    The Python value [None] is [None] here, a float [x] is [Some x]. *)
Definition estimate_noise (data : list pyfloat) (min_peak_width : pyfloat)
  : result (option pyfloat) :=
  amplitudes ← take_indices data (noise_peaks data min_peak_width);
  let average_noise := mean amplitudes in
  if is_nan average_noise then Ok None else Ok (Some average_noise).

End WithKernels.

End NoiseEstimation.

(** ** baseline_detection.py *)

Module BaselineDetection.
Import Py PyFloat Numeric.

Section WithKernels.
Context (K : kernels).

(** [[
    def rubberband_baseline_detection(x_values, y_values):
        ascending = True
        positive_peaks = True
        if x_values[1] < x_values[0]:
            ascending = False
            x_values = np.flip(x_values)
            y_values = np.flip(y_values)
        max_peak_idx = abs(y_values - np.median(y_values)).argmax()
        if y_values[max_peak_idx] < np.median(y_values):
            positive_peaks = False
            y_values = -y_values
        hull_vertex_indices = ConvexHull(
            np.column_stack((x_values, y_values))).vertices
        indices_rolled = np.roll(hull_vertex_indices,
                                 -hull_vertex_indices.argmin())
        indices_final = indices_rolled[:indices_rolled.argmax()]
        baseline = np.interp(x_values, x_values[indices_final],
                             y_values[indices_final])
        if not ascending:
            baseline = np.flip(baseline)
        if not positive_peaks:
            baseline = -baseline
        return baseline
    ]] *)
Definition rubberband_baseline_detection (x_values y_values : list pyfloat)
  : result (list pyfloat) :=
  x1 ← subscript x_values 1;
  x0 ← subscript x_values 0;
  let ascending := negb (fltb x1 x0) in
  let x_values := if ascending then x_values else flip x_values in
  let y_values := if ascending then y_values else flip y_values in
  let med := median y_values in
  max_peak_idx ←
    argmax (map (fun y => fabs (fadd y (fneg med))) y_values);
  y_max ← subscript y_values (Z.of_nat max_peak_idx);
  let positive_peaks := negb (fltb y_max med) in
  let y_values := if positive_peaks then y_values else map fneg y_values in
  points ← column_stack x_values y_values;
  hull_vertex_indices ← convex_hull_vertices K points;
  start ← argmin_nat hull_vertex_indices;
  let indices_rolled := roll_left hull_vertex_indices start in
  stop ← argmax_nat indices_rolled;
  let indices_final := take stop indices_rolled in
  xp ← take_indices x_values indices_final;
  fp ← take_indices y_values indices_final;
  baseline ← interp K x_values xp fp;
  let baseline := if ascending then baseline else flip baseline in
  let baseline := if positive_peaks then baseline else map fneg baseline in
  Ok baseline.

(** [y_values - baseline], elementwise; numpy refuses arrays of
    different lengths. *)
Definition subtract (a b : list pyfloat) : result (list pyfloat) :=
  if (length a =? length b)%nat
  then Ok (zip_with (fun u v => fadd u (fneg v)) a b)
  else Raise ValueError.

Definition rubberband_baseline_removal (x_values y_values : list pyfloat)
  : result (list pyfloat) :=
  baseline ← rubberband_baseline_detection x_values y_values;
  subtract y_values baseline.

End WithKernels.

End BaselineDetection.

(** ** peak_selection.py *)

Module PeakSelection.
Import Py PyFloat.
#[local] Open Scope Q_scope.

(** The values stored in a peak dictionary. *)
Inductive pyval : Type :=
| VFloat (x : pyfloat)
| VInt (n : Z)
| VBool (b : bool).

(** A peak of the pulsed-technique analyzer: the dictionary built in
    [_get_peak_data], one field per key. *)
Record peak_record : Type := {
  onset : pyfloat;
  offset : pyfloat;
  peak : pyfloat;
  onset_idx : Z;
  peak_idx : Z;
  offset_idx : Z;
  height : pyfloat;
  width : pyfloat;
  shape_factor : pyfloat;
  rel_shape_factor : pyfloat;
  overlap : bool
}.

(** [peak[key]]. *)
Definition peak_get (p : peak_record) (key : string) : result pyval :=
  if String.eqb key "onset" then Ok (VFloat (onset p))
  else if String.eqb key "offset" then Ok (VFloat (offset p))
  else if String.eqb key "peak" then Ok (VFloat (peak p))
  else if String.eqb key "onset_idx" then Ok (VInt (onset_idx p))
  else if String.eqb key "peak_idx" then Ok (VInt (peak_idx p))
  else if String.eqb key "offset_idx" then Ok (VInt (offset_idx p))
  else if String.eqb key "height" then Ok (VFloat (height p))
  else if String.eqb key "width" then Ok (VFloat (width p))
  else if String.eqb key "shape_factor" then Ok (VFloat (shape_factor p))
  else if String.eqb key "rel_shape_factor"
       then Ok (VFloat (rel_shape_factor p))
  else if String.eqb key "overlap" then Ok (VBool (overlap p))
  else Raise KeyError.

(** The number a value stands for in a comparison ([True == 1]). *)
Definition to_float (v : pyval) : pyfloat :=
  match v with
  | VFloat x => x
  | VInt n => Finite (inject_Z n)
  | VBool b => Finite (if b then 1 else 0)
  end.

(** [a == b]. *)
Definition feqb (x y : pyfloat) : bool :=
  match x, y with
  | Finite a, Finite b => Qeq_bool a b
  | PInf, PInf | NInf, NInf => true
  | _, _ => false
  end.

Definition py_eqb (a b : pyval) : bool := feqb (to_float a) (to_float b).

(** [bool(v)]. *)
Definition truthy (v : pyval) : bool :=
  match v with
  | VBool b => b
  | VInt n => negb (n =? 0)%Z
  | VFloat (Finite q) => negb (Qeq_bool q 0)
  | VFloat _ => true
  end.

(** A filter clause [{"key": ..., "operation": ...}].  The operation is
    a Python expression in [x] that the code passes to [eval]: it is
    kept as the function of [x] it denotes. *)
Record filter_clause : Type := {
  filter_key : string;
  filter_operation : pyval -> result pyval
}.

(** A selection clause: its expression is evaluated with [x] bound to
    the list of the values of the key. *)
Record selection_clause : Type := {
  selection_key : string;
  selection_operation : list pyval -> result pyval
}.

(** [[peak for peak in peak_list if filter_func(peak[filter["key"]])]] *)
Fixpoint keep_peaks (f : filter_clause) (peak_list : list peak_record)
  : result (list peak_record) :=
  match peak_list with
  | [] => Ok []
  | p :: rest =>
      x ← peak_get p (filter_key f);
      v ← filter_operation f x;
      kept ← keep_peaks f rest;
      Ok (if truthy v then p :: kept else kept)
  end.

(** [[
    def filter_peaks(peak_list, filters):
        for filter in filters:
            filter_func = lambda x: eval(filter["operation"])
            peak_list = [peak for peak in peak_list
                         if filter_func(peak[filter["key"]])]
        return peak_list
    ]] *)
Definition filter_peaks (peak_list : list peak_record)
    (filters : list filter_clause) : result (list peak_record) :=
  rfold (fun peak_list f => keep_peaks f peak_list) peak_list filters.

(** [l.index(v)]: [ValueError] when [v] is not in the list. *)
Fixpoint index_of (v : pyval) (l : list pyval) : result nat :=
  match l with
  | [] => Raise ValueError
  | w :: l' => if py_eqb w v then Ok O else (i ← index_of v l'; Ok (S i))
  end.

(** [[
    def select_peaks(peak_list, operation):
        peak_properties = [peak[operation["key"]] for peak in peak_list]
        operation_func = lambda x: eval(operation["operation"])
        peak_idx = peak_properties.index(operation_func(peak_properties))
        return peak_idx, peak_list[peak_idx]
    ]] *)
Definition select_peaks (peak_list : list peak_record)
    (operation : selection_clause) : result (nat * peak_record) :=
  peak_properties ← rmap (fun p => peak_get p (selection_key operation))
                       peak_list;
  chosen ← selection_operation operation peak_properties;
  peak_idx ← index_of chosen peak_properties;
  p ← subscript peak_list (Z.of_nat peak_idx);
  Ok (peak_idx, p).

(** The builtins [max(x)] and [min(x)] of a list, the usual selection
    operations: [ValueError] on an empty list. *)
Definition py_max (x : list pyval) : result pyval :=
  match x with
  | [] => Raise ValueError
  | v :: rest =>
      Ok (foldl (fun best w =>
                   if fltb (to_float best) (to_float w) then w else best)
                v rest)
  end.

Definition py_min (x : list pyval) : result pyval :=
  match x with
  | [] => Raise ValueError
  | v :: rest =>
      Ok (foldl (fun best w =>
                   if fltb (to_float w) (to_float best) then w else best)
                v rest)
  end.

End PeakSelection.

(** ** EChemDataAnalyzer.py *)

Module EChemDataAnalyzer.
Import Py PyFloat Numeric.
#[local] Open Scope Q_scope.

(** A raw dataset: one row per sample point.  The last column is the
    iteration number that [EChemController.do_measurement] appends. *)
Abbreviation dataset := (list (list pyfloat)).

(** [np.max(a)] of a one-dimensional array: [ValueError] on an empty
    one, NaN as soon as one entry is NaN. *)
Definition np_max (a : list pyfloat) : result pyfloat :=
  match a with
  | [] => Raise ValueError
  | v :: rest =>
      Ok (foldl (fun best w =>
                   if is_nan best then best
                   else if is_nan w || fltb best w then w else best)
                v rest)
  end.

Definition feq_int (x : pyfloat) (n : Z) : bool :=
  match x with
  | Finite q => Qeq_bool q (inject_Z n)
  | _ => false
  end.

(** [a[a[:, c] == value]]: the rows whose column [c] equals [value]. *)
Definition rows_where (a : dataset) (c : Z) (value : Z) : result dataset :=
  keys ← column a c;
  Ok (omap (fun '(k, row) => if feq_int k value then Some row else None)
           (zip keys a)).

(** [range(lo, hi)]. *)
Definition range (lo hi : Z) : list Z :=
  map (fun i => lo + Z.of_nat i)%Z (seq 0 (Z.to_nat (hi - lo))).

(** [[
    def _separate_iterations(self):
        no_iterations = int(np.max(self._raw_data[:, -1]) + 1)
        self._raw_data = [self._raw_data[self._raw_data[:, -1] == iteration]
                          for iteration in range(no_iterations)]
        for no_iteration in range(no_iterations):
            self._analysis_results[f"iteration_{no_iteration}"] = {}
    ]]
    The function returns the new [_raw_data]; the analysis results get
    one empty dictionary per entry of it. *)
Definition _separate_iterations (raw_data : dataset)
  : result (list dataset) :=
  last_column ← column raw_data (-1);
  top ← np_max last_column;
  no_iterations ← to_int (fadd top (Finite 1));
  rmap (fun iteration => rows_where raw_data (-1) iteration)
       (range 0 no_iterations).

End EChemDataAnalyzer.

(** ** PulseTechniqueAnalyzer.py *)

Module PulseTechniqueAnalyzer.
Import Py PyFloat Numeric SignificantDigits PeakSelection.
Import NoiseEstimation BaselineDetection EChemDataAnalyzer.
#[local] Open Scope Q_scope.

(** The attributes of the analyzer that the modelled steps read and
    write.  [peak_picking !! i] is
    [_analysis_results[f"iteration_{i}"].get("Peak Picking")] and
    [cv_parameters] is [_analysis_results.get("CV Parameters")]. *)
Record analyzer : Type := {
  _raw_data : list dataset;
  peak_picking : list (option (list peak_record));
  cv_parameters : option (list (list pyfloat))
}.

(** The state after [__init__]. *)
Definition init (raw_data : dataset) : result analyzer :=
  iterations ← _separate_iterations raw_data;
  Ok {| _raw_data := iterations;
        peak_picking := replicate (length iterations) None;
        cv_parameters := None |}.

Fixpoint insert_row (key : pyfloat) (row : list pyfloat)
    (sorted : list (pyfloat * list pyfloat))
  : list (pyfloat * list pyfloat) :=
  match sorted with
  | [] => [(key, row)]
  | (k, r) :: rest =>
      if fltb key k then (key, row) :: sorted
      else (k, r) :: insert_row key row rest
  end.

Definition set_column_abs (c : nat) (row : list pyfloat) : list pyfloat :=
  match row !! c with
  | Some v => <[c := fabs v]> row
  | None => row
  end.

(** [[
    def _process_reduction_data(reduction_data):
        idx_sorted = np.argsort(reduction_data[:, 1])
        reduction_data = reduction_data[idx_sorted, :]
        reduction_data[:, 2] = abs(reduction_data[:, 2])
        return reduction_data
    ]]
    [argsort] is taken to be stable (numpy leaves the order of equal
    keys open). *)
Definition _process_reduction_data (reduction_data : dataset)
  : result dataset :=
  voltages ← column reduction_data 1;
  _ ← column reduction_data 2;
  let sorted := foldr (fun '(k, r) acc => insert_row k r acc) []
                      (zip voltages reduction_data) in
  Ok (map (fun '(_, r) => set_column_abs 2 r) sorted).

(** [[
    def _classify_oxidation_reduction(data_of_iteration):
        if data_of_iteration[:, 1][0] < data_of_iteration[:, 1][-1]:
            return "oxidation"
        else:
            return "reduction"
    ]] *)
Definition _classify_oxidation_reduction (data_of_iteration : dataset)
  : result string :=
  voltages ← column data_of_iteration 1;
  first ← subscript voltages 0;
  final ← subscript voltages (-1);
  Ok (if fltb first final then "oxidation" else "reduction")%string.

(** Objects that take part in the membership test of [_get_peak_data]:
    a string, and the view returned by [dict.keys()]. *)
Inductive pyobj : Type :=
| ObjStr (s : string)
| ObjKeys (keys : list string).

(** [a == b]: a string and a keys view are never equal. *)
Definition obj_eqb (a b : pyobj) : bool :=
  match a, b with
  | ObjStr s, ObjStr t => String.eqb s t
  | ObjKeys k, ObjKeys k' =>
      forallb (fun x => bool_decide (x ∈ k')) k
      && forallb (fun x => bool_decide (x ∈ k)) k'
  | _, _ => false
  end.

(** [a in l] for a list [l]. *)
Definition py_in (a : pyobj) (l : list pyobj) : bool := existsb (obj_eqb a) l.

(** [d[key]] on a dictionary. *)
Definition dict_get {V} (d : gmap string V) (key : string) : result V :=
  match d !! key with
  | Some v => Ok v
  | None => Raise KeyError
  end.

(** [peak_properties[key][i]]. *)
Definition property (peak_properties : gmap string (list pyfloat))
    (key : string) (i : nat) : result pyfloat :=
  a ← dict_get peak_properties key;
  subscript a (Z.of_nat i).

(** [data_of_iteration[idx, 1]]. *)
Definition voltage_at (data_of_iteration : dataset) (idx : Z)
  : result pyfloat :=
  row ← subscript data_of_iteration idx;
  subscript row 1.

(** The builtin [max] of a list of floats. *)
Definition max_of (l : list pyfloat) : result pyfloat :=
  match l with
  | [] => Raise ValueError
  | v :: rest =>
      Ok (foldl (fun best w => if fltb best w then w else best) v rest)
  end.

Definition with_offset (p : peak_record) (x : pyfloat) : peak_record :=
  {| onset := onset p; offset := x; peak := peak p;
     onset_idx := onset_idx p; peak_idx := peak_idx p;
     offset_idx := offset_idx p; height := height p; width := width p;
     shape_factor := shape_factor p;
     rel_shape_factor := rel_shape_factor p; overlap := overlap p |}.

Definition with_overlap (p : peak_record) (b : bool) : peak_record :=
  {| onset := onset p; offset := offset p; peak := peak p;
     onset_idx := onset_idx p; peak_idx := peak_idx p;
     offset_idx := offset_idx p; height := height p; width := width p;
     shape_factor := shape_factor p;
     rel_shape_factor := rel_shape_factor p; overlap := b |}.

(** One turn of the loop
    [[
    for peak1, peak2 in zip(peaks, peaks[1:]):
        if peak1["offset"] > peak2["onset"]:
            peak1["overlap"] = True
            peak2["overlap"] = True
            peak2["offset"] = peak1["offset"]
            peak1["offset"] = peak2["onset"]
    ]]
    The dictionaries are shared between [peaks] and [peaks[1:]]: the
    pair of turn [i] is made of the entries [i] and [i + 1] of the one
    list [peaks], and what a turn writes the next turn reads. *)
Definition reconcile_pair (peaks : list peak_record) (i : nat)
  : list peak_record :=
  match peaks !! i, peaks !! S i with
  | Some peak1, Some peak2 =>
      if fgtb (offset peak1) (onset peak2) then
        let peak1 := with_overlap peak1 true in
        let peak2 := with_overlap peak2 true in
        let peak2 := with_offset peak2 (offset peak1) in
        let peak1 := with_offset peak1 (onset peak2) in
        <[i := peak1]> (<[S i := peak2]> peaks)
      else peaks
  | _, _ => peaks
  end.

Definition reconcile_overlaps (peaks : list peak_record)
  : list peak_record :=
  foldl reconcile_pair peaks (seq 0 (length peaks - 1)).

(** The dictionary appended for peak number [i]; the entries are
    evaluated in the order of the source. *)
Definition peak_entry (data_of_iteration : dataset)
    (peak_properties : gmap string (list pyfloat)) (redox_process : string)
    (max_shape_factor : pyfloat) (i : nat) (peak_idx : nat)
  : result peak_record :=
  left_ip ← property peak_properties "left_ips" i;
  onset_idx ← to_int left_ip;
  right_ip ← property peak_properties "right_ips" i;
  offset_idx ← to_int right_ip;
  peak_height ← property peak_properties "peak_heights" i;
  let height :=
    if String.eqb redox_process "reduction" then fneg peak_height
    else peak_height in
  v_onset ← voltage_at data_of_iteration onset_idx;
  onset ← significant_digits v_onset 3;
  v_offset ← voltage_at data_of_iteration offset_idx;
  offset ← significant_digits v_offset 3;
  v_peak ← voltage_at data_of_iteration (Z.of_nat peak_idx);
  peak ← significant_digits v_peak 3;
  height ← significant_digits height 3;
  w ← property peak_properties "widths" i;
  width ← significant_digits w 3;
  h1 ← property peak_properties "peak_heights" i;
  w1 ← property peak_properties "widths" i;
  shape_factor ← significant_digits (fdiv h1 w1) 3;
  h2 ← property peak_properties "peak_heights" i;
  w2 ← property peak_properties "widths" i;
  rel_shape_factor ←
    significant_digits (fdiv (fdiv h2 w2) max_shape_factor) 3;
  Ok {| onset := onset; offset := offset; peak := peak;
        onset_idx := onset_idx; peak_idx := Z.of_nat peak_idx;
        offset_idx := offset_idx; height := height; width := width;
        shape_factor := shape_factor;
        rel_shape_factor := rel_shape_factor; overlap := false |}.

(** [[
    def _get_peak_data(data_of_iteration, peaks_picked, peak_properties,
                       redox_process):
        peaks = []
        if not peaks_picked.any():
            return peaks
        if "peak_heights" in [peak_properties.keys()]:
            max_shape_factor = max([peak_properties["peak_heights"][i]
                                    / peak_properties["widths"][i]
                                    for i in range(len(peaks_picked))])
        else:
            peak_properties["peak_heights"] = [np.nan]*peaks_picked.size
            max_shape_factor = np.nan
        for i, peak_idx in enumerate(peaks_picked):
            ...
            peaks.append({...})
        for peak1, peak2 in zip(peaks, peaks[1:]):
            ...
        return peaks
    ]] *)
Definition _get_peak_data (data_of_iteration : dataset)
    (peaks_picked : list nat) (peak_properties : gmap string (list pyfloat))
    (redox_process : string) : result (list peak_record) :=
  if negb (existsb (fun i => negb (i =? 0)%nat) peaks_picked) then Ok []
  else
    '(peak_properties, max_shape_factor) ←
      (if py_in (ObjStr "peak_heights")
                [ObjKeys (elements (dom peak_properties))]
       then
         factors ← rmap (fun i =>
                           h ← property peak_properties "peak_heights" i;
                           w ← property peak_properties "widths" i;
                           Ok (fdiv h w))
                        (seq 0 (length peaks_picked));
         m ← max_of factors;
         Ok (peak_properties, m)
       else
         Ok (<["peak_heights" := replicate (length peaks_picked) NaN]>
               peak_properties, NaN));
    peaks ← rmap (fun '(i, peak_idx) =>
                    peak_entry data_of_iteration peak_properties
                               redox_process max_shape_factor i peak_idx)
                 (zip (seq 0 (length peaks_picked)) peaks_picked);
    Ok (reconcile_overlaps peaks).

Section WithKernels.
Context (K : kernels).

(** [noise] as a condition: [None] and [0.0] count as false. *)
Definition noise_is_true (noise : option pyfloat) : bool :=
  match noise with
  | None => false
  | Some x => truthy (VFloat x)
  end.

(** [[
    def _pick_peaks(self, data_of_iteration, iteration, min_peak_width,
                    min_signal_noise, rel_height, redox_process):
        currents_corrected = rubberband_baseline_removal(
            data_of_iteration[:, 1], data_of_iteration[:, 2])
        noise = estimate_noise(data=currents_corrected,
                               min_peak_width=min_peak_width)
        peaks_picked, peak_properties = find_peaks(
            currents_corrected,
            height=(min_signal_noise*noise if noise else None),
            width=min_peak_width, rel_height=rel_height)
        self._analysis_results[f"iteration_{iteration}"]["Peak Picking"] \
            = self._get_peak_data(data_of_iteration, peaks_picked,
                                  peak_properties, redox_process)
    ]] *)
Definition detect_peaks (data_of_iteration : dataset)
    (min_peak_width min_signal_noise rel_height : pyfloat)
  : result (list nat * gmap string (list pyfloat)) :=
  voltages ← column data_of_iteration 1;
  currents ← column data_of_iteration 2;
  currents_corrected ← rubberband_baseline_removal K voltages currents;
  noise ← estimate_noise K currents_corrected min_peak_width;
  let height :=
    match noise with
    | Some x => if noise_is_true noise
                then Some (fmul min_signal_noise x) else None
    | None => None
    end in
  Ok (find_peaks K currents_corrected height (Some min_peak_width)
                 rel_height).

Definition _pick_peaks (self : analyzer) (data_of_iteration : dataset)
    (iteration : nat)
    (min_peak_width min_signal_noise rel_height : pyfloat)
    (redox_process : string) : result analyzer :=
  '(peaks_picked, peak_properties) ←
    detect_peaks data_of_iteration min_peak_width min_signal_noise
                 rel_height;
  peaks ← _get_peak_data data_of_iteration peaks_picked peak_properties
                         redox_process;
  if (iteration <? length (peak_picking self))%nat
  then Ok {| _raw_data := _raw_data self;
             peak_picking := <[iteration := Some peaks]> (peak_picking self);
             cv_parameters := cv_parameters self |}
  else Raise KeyError.

(** [[
    def _peak_picking(self, min_peak_width, min_signal_noise,
                      rel_height):
        for no_iteration in range(len(self._raw_data)):
            data_of_iteration = self._raw_data[no_iteration]
            redox_process = self._classify_oxidation_reduction(
                data_of_iteration)
            if redox_process == "reduction":
                data_of_iteration = self._process_reduction_data(
                    reduction_data=data_of_iteration)
            ...
            self._pick_peaks(data_of_iteration, no_iteration, ...)
    ]] *)
Definition _peak_picking (self : analyzer)
    (min_peak_width min_signal_noise rel_height : pyfloat)
  : result analyzer :=
  rfold (fun self no_iteration =>
           data_of_iteration ←
             subscript (_raw_data self) (Z.of_nat no_iteration);
           redox_process ← _classify_oxidation_reduction data_of_iteration;
           data_of_iteration ←
             (if String.eqb redox_process "reduction"
              then _process_reduction_data data_of_iteration
              else Ok data_of_iteration);
           _pick_peaks self data_of_iteration no_iteration min_peak_width
                       min_signal_noise rel_height redox_process)
        self (seq 0 (length (_raw_data self))).

End WithKernels.

(** The builtins [max(a, b)] and [min(a, b)]: the first argument unless
    the second is strictly beyond it. *)
Definition max2 (a b : pyfloat) : pyfloat := if fgtb b a then b else a.
Definition min2 (a b : pyfloat) : pyfloat := if fltb b a then b else a.

(** [np.zeros((rows, columns))]. *)
Definition zeros (rows columns : nat) : list (list pyfloat) :=
  replicate rows (replicate columns (Finite 0)).

(** [self._analysis_results[f"iteration_{i}"]["Peak Picking"]]. *)
Definition picked_peaks (self : analyzer) (no_iteration : nat)
  : result (list peak_record) :=
  match peak_picking self !! no_iteration with
  | Some (Some peaks) => Ok peaks
  | _ => Raise KeyError
  end.

(** The scan over the peaks of an iteration for the neighbours of the
    selected peak:
    [[
    for peak in self._analysis_results[...]["Peak Picking"]:
        if peak["peak"] < selected_peak["peak"]:
            min_peak_onset = peak["offset"]
        elif peak["peak"] > selected_peak["peak"]:
            max_peak_offset = peak["onset"]
    ]] *)
Definition neighbour_bounds (selected_peak : peak_record)
    (bounds : pyfloat * pyfloat) (peaks : list peak_record)
  : pyfloat * pyfloat :=
  foldl (fun '(min_peak_onset, max_peak_offset) p =>
           if fltb (peak p) (peak selected_peak)
           then (offset p, max_peak_offset)
           else if fgtb (peak p) (peak selected_peak)
                then (min_peak_onset, onset p)
                else (min_peak_onset, max_peak_offset))
        bounds peaks.

(** The body of the [try] of [_get_cv_parameters]. *)
Definition select_peak_of_interest (self : analyzer)
    (filters : list filter_clause) (selection : selection_clause)
    (no_iteration : nat) : result (nat * peak_record) :=
  peaks ← picked_peaks self no_iteration;
  filtered_peaks ← filter_peaks peaks filters;
  select_peaks filtered_peaks selection.

(** One turn of the loop of [_get_cv_parameters] on the table
    [cv_parameters]; [Ok] with the table unchanged is the [continue] of
    the handler. *)
Definition cv_parameters_turn (self : analyzer)
    (filters : list filter_clause) (selection : selection_clause)
    (min_voltage max_voltage additional_voltage : pyfloat)
    (cv_parameters : list (list pyfloat)) (no_iteration : nat)
  : result (list (list pyfloat)) :=
  let min_peak_onset := min_voltage in
  let max_peak_offset := max_voltage in
  match select_peak_of_interest self filters selection no_iteration with
  | Raise TypeError | Raise ValueError => Ok cv_parameters
  | Raise e => Raise e
  | Ok (selected_peak_idx, selected_peak) =>
      peaks ← picked_peaks self no_iteration;
      let '(min_peak_onset, max_peak_offset) :=
        neighbour_bounds selected_peak (min_peak_onset, max_peak_offset)
                         peaks in
      let min_peak_onset :=
        max2 min_peak_onset
             (fadd (onset selected_peak) (fneg additional_voltage)) in
      let max_peak_offset :=
        min2 max_peak_offset
             (fadd (offset selected_peak) additional_voltage) in
      Ok (<[no_iteration := [max_peak_offset; max_peak_offset;
                             min_peak_onset; max_peak_offset;
                             max_peak_offset]]> cv_parameters)
  end.

(** [[
    def _get_cv_parameters(self, filters, selection, min_voltage,
                           max_voltage, additional_voltage):
        cv_parameters = np.zeros((len(self._raw_data), 5))
        for no_iteration in range(len(self._raw_data)):
            min_peak_onset,max_peak_offset = min_voltage,max_voltage
            try:
                filtered_peaks = filter_peaks(
                    self._analysis_results[f"iteration_{no_iteration}"]
                        ["Peak Picking"], filters)
                selected_peak_idx, selected_peak = select_peaks(
                    filtered_peaks, selection)
            except (TypeError, ValueError):
                continue
            for peak in ...: ...
            min_peak_onset = float(max(min_peak_onset,
                selected_peak["onset"] - additional_voltage))
            max_peak_offset = float(min(max_peak_offset,
                selected_peak["offset"] + additional_voltage))
            cv_parameters[no_iteration] = np.array(
                [max_peak_offset, max_peak_offset, min_peak_onset,
                 max_peak_offset, max_peak_offset])
        self._analysis_results["CV Parameters"] = cv_parameters
    ]]
    [cv_parameters_table] is the table at the end of the loop. *)
Definition cv_parameters_table (self : analyzer)
    (filters : list filter_clause) (selection : selection_clause)
    (min_voltage max_voltage additional_voltage : pyfloat)
  : result (list (list pyfloat)) :=
  rfold (cv_parameters_turn self filters selection min_voltage max_voltage
                            additional_voltage)
        (zeros (length (_raw_data self)) 5)
        (seq 0 (length (_raw_data self))).

Definition _get_cv_parameters (self : analyzer)
    (filters : list filter_clause) (selection : selection_clause)
    (min_voltage max_voltage additional_voltage : pyfloat)
  : result analyzer :=
  table ← cv_parameters_table self filters selection min_voltage
                              max_voltage additional_voltage;
  Ok {| _raw_data := _raw_data self;
        peak_picking := peak_picking self;
        cv_parameters := Some table |}.

End PulseTechniqueAnalyzer.

(** ** CVAnalyzer.py *)

Module CVAnalyzer.
Import Py PyFloat Numeric EChemDataAnalyzer.
#[local] Open Scope Q_scope.

(** What [self._raw_data] holds while [__init__] runs: the array handed
    to the constructor, the list of arrays that [_separate_iterations]
    leaves, then the list of lists of arrays of the loop of
    [_separate_cycles]. *)
Inductive raw_data : Type :=
| RawArray (a : dataset)
| RawIterations (iterations : list dataset)
| RawCycles (cycles : list (list dataset)).

(** The loop of [_separate_cycles], lines 34 to 38, on one iteration:
    [[
    skip_cycles = 2
    no_cycles = int(np.max(iteration_data[:, 3]) + 1)
    self._raw_data[no_iteration] = [
        iteration_data[iteration_data[:, 3] == cycle]
        for cycle in range(skip_cycles, no_cycles)]
    ]] *)
Definition cycles_of_iteration (iteration_data : dataset)
  : result (list dataset) :=
  let skip_cycles := 2%Z in
  cycle_column ← column iteration_data 3;
  top ← np_max cycle_column;
  no_cycles ← to_int (fadd top (Finite 1));
  rmap (fun cycle => rows_where iteration_data 3 cycle)
       (range skip_cycles no_cycles).

(** [self._raw_data[:, 3]]: a tuple as subscript is understood by a
    numpy array only; a Python list raises [TypeError]. *)
Definition subscript_column (data : raw_data) (c : Z)
  : result (list pyfloat) :=
  match data with
  | RawArray a => column a c
  | RawIterations _ | RawCycles _ => Raise TypeError
  end.

(** [[
    def _separate_cycles(self):
        for no_iteration in range(len(self._raw_data)):
            iteration_data = self._raw_data[no_iteration]
            skip_cycles = 2
            no_cycles = int(np.max(iteration_data[:, 3]) + 1)
            self._raw_data[no_iteration] = [...]
        skip_cycles = 2
        no_cycles = int(np.max(self._raw_data[:, 3]))
        self._raw_data = [self._raw_data[self._raw_data[:, 3] == cycle]
                          for cycle in range(skip_cycles, no_cycles)]
    ]]
    The method is called on the list that [_separate_iterations] left
    in [self._raw_data]. *)
Definition separate_cycles_loop (iterations : list dataset)
  : result (list (list dataset)) :=
  rmap cycles_of_iteration iterations.

Definition _separate_cycles (iterations : list dataset)
  : result raw_data :=
  cycles ← separate_cycles_loop iterations;
  let self_raw_data := RawCycles cycles in
  let skip_cycles := 2%Z in
  cycle_column ← subscript_column self_raw_data 3;
  top ← np_max cycle_column;
  no_cycles ← to_int top;
  match self_raw_data with
  | RawArray a =>
      parts ← rmap (fun cycle => rows_where a 3 cycle)
                   (range skip_cycles no_cycles);
      Ok (RawIterations parts)
  | _ => Raise TypeError
  end.

(** [CVAnalyzer.__init__]: the two partitioning calls. *)
Definition init (raw : dataset) : result raw_data :=
  iterations ← _separate_iterations raw;
  _separate_cycles iterations.

End CVAnalyzer.


(** ** WorkflowManager.py *)

Module WorkflowData.
Import Py PyFloat.
#[local] Open Scope Q_scope.

(** *** Data *)

(** A value of an analysis result or of a measurement parameter: a
    string, a number, or any other object (a list, an array, a nested
    dictionary), of which the workflow manager only tests that it is no
    string. *)
Inductive value : Type :=
| Str (s : string)
| Num (q : Q)
| Other (what : string).

(** An entry of the dictionary of results of one sample: the two header
    strings, the flag written by a dilution, or the analysis results of
    a measurement. *)
Inductive entry : Type :=
| EntryStr (s : string)
| EntryBool (b : bool)
| EntryAnalysis (a : gmap string value).

Abbreviation result_dict := (gmap string entry).

(** An element of [update_parameters]:
    [{"parameter": ..., "from measurement": ..., "key": ...}]. *)
Record update_setting : Type := {
  parameter : string;
  from_measurement : string;
  key : string
}.

(** The keyword arguments of a [measure] step. *)
Record measure_kwargs : Type := {
  technique : string;
  parameters : gmap string value;
  update_parameters : list update_setting;
  analysis_settings : gmap string (gmap string value);
  channel : option Z
}.

(** The keyword arguments that reach [_dilute_cell]: [task] is there
    when the call comes from [_execute_step], which forwards the whole
    step dictionary, and absent in the call of [shutdown_system]. *)
Record dilute_kwargs : Type := {
  dilute_task : option string;
  dilute_volume : option Q;
  dilute_factor : option Q
}.

(** A step of a workflow file, by the value of its key [task]. *)
Inductive step_details : Type :=
| MeasureStep (kwargs : measure_kwargs)
| DiluteStep (volume factor : option Q)
| UnknownStep (task : string).

(** The entry [Wash] of a workflow file; absent keys take the defaults
    of [_sample_in_cell]. *)
Record wash_settings : Type := {
  wash_volume : option Q;
  washing_cycles : option Z
}.

(** A workflow file with its required keys. *)
Record workflow : Type := {
  protocol_name : string;
  steps : list (string * step_details);
  sample_volume : Q;
  total_volume : Q;
  discard_sample : bool;
  purge : Q;
  wash : wash_settings
}.

(** *** The instruments *)

(** The methods of the sampling system that the workflow manager
    calls. *)
Inductive sampler_call : Type :=
| transfer_to_cell (source_port : Z) (volume : Q)
| dilute_cell (volume factor : option Q)
| purge_cell (purge_time : Q)
| wash_autosampler_position (sampler_position : Z)
| wash_cell (wash_volume : Q) (cycles : Z).

Inductive message : Type :=
| StartingProtocol (protocol sample_name : string)
| NowExecuting (step_name : string)
| WillBeSkipped (step_name : string)
| SampleTransferred (sample_volume dilution : Q)
| MeasurementsCompleted.

(** What the workflow manager asks of its collaborators, in the order
    in which it asks. *)
Inductive event : Type :=
| Sampler (c : sampler_call)
| Measurement (technique : string) (parameters : gmap string value)
              (channel : option Z)
| Analysis (sample_name experiment_name technique : string)
| LogInfo (m : message)
| SetSampleName (s : string)
| SetExperimentName (s : string).

(** The collaborators themselves: each call changes the world of the
    devices and returns or raises. *)
Record devices (World : Type) : Type := {
  sampling_system : sampler_call -> World -> World * result unit;
  do_measurement :
    string -> gmap string value -> option Z ->
    World -> World * result (list (list pyfloat));
  analyze_data :
    string -> string -> string -> gmap string (gmap string value) ->
    list (list pyfloat) -> World -> World * result (gmap string value)
}.
Arguments sampling_system {World}.
Arguments do_measurement {World}.
Arguments analyze_data {World}.

Record state (World : Type) : Type := {
  world : World;
  trace : list event
}.
Arguments world {World}.
Arguments trace {World}.

(** *** The monad of the methods *)

Definition M (World A : Type) : Type :=
  state World -> state World * result A.

Definition ret {World A} (a : A) : M World A := fun s => (s, Ok a).

Definition raise {World A} (e : exn) : M World A := fun s => (s, Raise e).

Definition bind {World A B} (m : M World A) (k : A -> M World B)
  : M World B :=
  fun s => match m s with
           | (s1, Ok a) => k a s1
           | (s1, Raise e) => (s1, Raise e)
           end.

(** A result of pure code inside a method. *)
Definition lift {World A} (r : result A) : M World A := fun s => (s, r).

Definition emit {World} (ev : event) : M World unit :=
  fun s => ({| world := world s; trace := trace s ++ [ev] |}, Ok tt).

(** A call to a collaborator: the call is recorded, then the world
    answers. *)
Definition call {World A} (ev : event) (f : World -> World * result A)
  : M World A :=
  fun s =>
    let '(w, r) := f (world s) in
    ({| world := w; trace := trace s ++ [ev] |}, r).

(** [try: body finally: cleanup].  The cleanup runs however the body
    ends; an exception of the cleanup replaces the outcome of the
    body. *)
Definition try_finally {World A} (body : M World A) (cleanup : M World unit)
  : M World A :=
  fun s =>
    let '(s1, r) := body s in
    match cleanup s1 with
    | (s2, Ok _) => (s2, r)
    | (s2, Raise e) => (s2, Raise e)
    end.

End WorkflowData.

#[global] Instance workflow_ret {World} : MRet (WorkflowData.M World) :=
  fun A => WorkflowData.ret.
#[global] Instance workflow_bind {World} : MBind (WorkflowData.M World) :=
  fun A B k m => WorkflowData.bind m k.

Module WorkflowManager.
Import Py PyFloat WorkflowData.
#[local] Open Scope Q_scope.

(** [_exception_keywords]. *)
Definition _exception_keywords (keyword : string) : option exn :=
  if String.eqb keyword "SKIP" then Some SkipExecution
  else if String.eqb keyword "STOP" then Some StopExecution
  else None.

(** [previous_results[a][b]]: a string is subscripted by integers only
    and a boolean not at all. *)
Definition lookup_result (previous_results : result_dict) (a b : string)
  : result value :=
  match previous_results !! a with
  | None => Raise KeyError
  | Some (EntryStr _) | Some (EntryBool _) => Raise TypeError
  | Some (EntryAnalysis r) =>
      match r !! b with
      | None => Raise KeyError
      | Some v => Ok v
      end
  end.

(** [[
    def _update_parameters(self, update_settings, parameters,
                           previous_results):
        for param_to_update in update_settings:
            new_value = previous_results[
                param_to_update["from measurement"]][param_to_update["key"]]
            if isinstance(new_value, str):
                if new_value in self._exception_keywords:
                    raise self._exception_keywords[new_value]
            parameters[param_to_update["parameter"]] = new_value
        return parameters
    ]] *)
Definition _update_parameters (update_settings : list update_setting)
    (parameters : gmap string value) (previous_results : result_dict)
  : result (gmap string value) :=
  rfold (fun parameters param_to_update =>
           new_value ← lookup_result previous_results
                                     (from_measurement param_to_update)
                                     (key param_to_update);
           match new_value with
           | Str s =>
               match _exception_keywords s with
               | Some e => Raise e
               | None => Ok (<[parameter param_to_update := new_value]>
                               parameters)
               end
           | _ => Ok (<[parameter param_to_update := new_value]> parameters)
           end)
        parameters update_settings.

Section WithDevices.
Context {World : Type} (D : devices World).

Definition sampler (c : sampler_call) : M World unit :=
  call (Sampler c) (sampling_system D c).

(** [[
    def run_measurement(self, sample_name, step_name, results,
                        technique, parameters, update_parameters,
                        analysis_settings, channel=None):
        if update_parameters:
            parameters = self._update_parameters(...)
        raw_data = self.potentiostat.do_measurement(...)
        analysis_results = self.analyzer.analyze_data(...)
        results[step_name] = analysis_results
        return results
    ]] *)
Definition run_measurement (sample_name step_name : string)
    (results : result_dict) (kwargs : measure_kwargs) : M World result_dict :=
  parameters ←
    (match update_parameters kwargs with
     | [] => ret (parameters kwargs)
     | _ => lift (_update_parameters (update_parameters kwargs)
                                     (parameters kwargs) results)
     end);
  raw_data ← call (Measurement (technique kwargs) parameters
                               (channel kwargs))
                  (do_measurement D (technique kwargs) parameters
                                  (channel kwargs));
  analysis_results ←
    call (Analysis sample_name step_name (technique kwargs))
         (analyze_data D sample_name step_name (technique kwargs)
                       (analysis_settings kwargs) raw_data);
  ret (<[step_name := EntryAnalysis analysis_results]> results).

(** [[
    def _dilute_cell(self, sample_name, step_name, results, kwargs...):
        self.sampling_system.dilute_cell(kwargs...)
        results["dilution"] = True
        return results
    ]]
    [SamplingSystem.dilute_cell(self, volume=0, factor=1)] has no
    parameter [task]: a call that passes one raises [TypeError]
    before the method body starts. *)
Definition _dilute_cell (sample_name step_name : string)
    (results : result_dict) (kwargs : dilute_kwargs) : M World result_dict :=
  _ ← (match dilute_task kwargs with
       | Some _ => raise TypeError
       | None => sampler (dilute_cell (dilute_volume kwargs)
                                      (dilute_factor kwargs))
       end);
  ret (<["dilution" := EntryBool true]> results).

(** [[
    def _execute_step(self, sample_name, step_name, previous_results,
                      kwargs...):
        executable_steps = {"measure": self.run_measurement,
                            "dilute": self._dilute_cell}
        self.logger.info(f"Now executing {step_name}.")
        return executable_steps[kwargs["task"]](
            sample_name, step_name, previous_results, kwargs...)
    ]] *)
Definition _execute_step (sample_name step_name : string)
    (previous_results : result_dict) (details : step_details)
  : M World result_dict :=
  _ ← emit (LogInfo (NowExecuting step_name));
  match details with
  | MeasureStep kwargs =>
      run_measurement sample_name step_name previous_results kwargs
  | DiluteStep volume factor =>
      _dilute_cell sample_name step_name previous_results
                   {| dilute_task := Some "dilute"%string;
                      dilute_volume := volume;
                      dilute_factor := factor |}
  | UnknownStep _ => raise KeyError
  end.

(** The loop of [_measure_sample]:
    [[
    for step, step_details in zip(workflow["Steps"],
                                  workflow["Steps"].values()):
        try:
            result = self._execute_step(sample_name, step, result,
                                        step_details...)
        except SkipExecution:
            self.logger.info(f"Execution of {step} will be skipped.")
            continue
        except StopExecution:
            break
    ]] *)
Fixpoint execute_steps (sample_name : string)
    (steps : list (string * step_details)) (result : result_dict)
  : M World result_dict :=
  match steps with
  | [] => ret result
  | (step, details) :: rest =>
      fun s =>
        match _execute_step sample_name step result details s with
        | (s1, Ok result) => execute_steps sample_name rest result s1
        | (s1, Raise SkipExecution) =>
            (_ ← emit (LogInfo (WillBeSkipped step));
             execute_steps sample_name rest result) s1
        | (s1, Raise StopExecution) => (s1, Ok result)
        | (s1, Raise e) => (s1, Raise e)
        end
  end.

(** The two halves of the context manager [_sample_in_cell]: the code
    before [yield] and the [finally] block. *)
Definition fill_cell (autosampler_position : Z)
    (sample_volume total_volume purge_time : Q) : M World unit :=
  _ ← emit (SetExperimentName "Filling Cell");
  _ ← sampler (transfer_to_cell autosampler_position sample_volume);
  _ ← sampler (dilute_cell (Some (total_volume - sample_volume)) None);
  _ ← emit (LogInfo (SampleTransferred sample_volume
                                       (total_volume - sample_volume)));
  _ ← sampler (purge_cell purge_time);
  emit (SetExperimentName "Purging Cell").

Definition empty_cell (autosampler_position : Z) (discard_sample : bool)
    (wash_volume : Q) (washing_cycles : Z) : M World unit :=
  _ ← emit (LogInfo MeasurementsCompleted);
  _ ← emit (SetExperimentName "Emptying Cell");
  _ ← (if discard_sample
       then sampler (wash_autosampler_position autosampler_position)
       else ret tt);
  sampler (wash_cell wash_volume washing_cycles).

(** [[
    @contextmanager
    def _sample_in_cell(self, autosampler_position, sample_volume,
                        total_volume, purge_time, discard_sample,
                        wash_volume=5, washing_cycles=3):
        ...
        try:
            yield
        finally:
            ...
    ]]
    [with self._sample_in_cell(...): body]. *)
Definition _sample_in_cell {A} (autosampler_position : Z)
    (sample_volume total_volume purge_time : Q) (discard_sample : bool)
    (wash_volume : Q) (washing_cycles : Z) (body : M World A)
  : M World A :=
  _ ← fill_cell autosampler_position sample_volume total_volume
                purge_time;
  try_finally body
              (empty_cell autosampler_position discard_sample wash_volume
                          washing_cycles).

(** [[
    def _measure_sample(self, sample_name, sample_location,
                        workflow_path):
        workflow = ConfigLoader.load_config(workflow_path, ...)
        self.logger.info(f"Starting Protocol ... for sample ...")
        self.logger.sample_name = sample_name
        result = {"Sample Name": sample_name,
                  "Workflow": workflow["Protocol Name"]}
        with self._sample_in_cell(...):
            for step, step_details in ...: ...
        return result
    ]]
    The workflow is taken as loaded. *)
Definition initial_result (sample_name : string) (w : workflow)
  : result_dict :=
  <["Workflow" := EntryStr (protocol_name w)]>
    (<["Sample Name" := EntryStr sample_name]> ∅).

Definition _measure_sample (sample_name : string) (sample_location : Z)
    (w : workflow) : M World result_dict :=
  _ ← emit (LogInfo (StartingProtocol (protocol_name w) sample_name));
  _ ← emit (SetSampleName sample_name);
  let result := initial_result sample_name w in
  _sample_in_cell sample_location (sample_volume w) (total_volume w)
                  (purge w) (discard_sample w)
                  (default 5 (wash_volume (wash w)))
                  (default 3%Z (washing_cycles (wash w)))
                  (execute_steps sample_name (steps w) result).

End WithDevices.

End WorkflowManager.

(** ** Notions used in the statements *)

Module Statements.
Import Py PyFloat Numeric SignificantDigits PeakSelection EChemDataAnalyzer.
Import PulseTechniqueAnalyzer.
#[local] Open Scope Q_scope.

Definition Qsum (l : list Q) : Q := foldr Qplus 0 l.

(** The abscissae that the baseline detection is written for: strictly
    ascending, or strictly descending. *)
Definition strictly_ascending (x : list pyfloat) : Prop :=
  forall i a b, x !! i = Some a -> x !! S i = Some b -> fltb a b = true.

Definition strictly_descending (x : list pyfloat) : Prop :=
  forall i a b, x !! i = Some a -> x !! S i = Some b -> fltb b a = true.

(** The cycle numbers of a dataset run from [0] to [k - 1]: the largest
    entry of column 3 is [k - 1]. *)
Definition cycle_count (data : dataset) (k : Z) : Prop :=
  exists col q, column data 3 = Ok col /\ np_max col = Ok (Finite q)
                /\ q == inject_Z (k - 1).

(** The overlap loop as a recursion on the list: [sweep peak1 rest] is
    what the loop makes of [peak1 :: rest]. *)
Fixpoint sweep (peak1 : peak_record) (rest : list peak_record)
  : list peak_record :=
  match rest with
  | [] => [peak1]
  | peak2 :: rest' =>
      if fgtb (offset peak1) (onset peak2)
      then with_offset (with_overlap peak1 true) (onset peak2)
           :: sweep (with_offset (with_overlap peak2 true) (offset peak1))
                    rest'
      else peak1 :: sweep peak2 rest'
  end.

(** The offset that peak number [i] carries when the loop compares it
    with the onset of peak number [i + 1]: its own offset as detected for
    the first peak and after a pair that was left alone, and the offset
    handed over by the peak before it after a pair that was reconciled. *)
Fixpoint examined (peak1 : peak_record) (rest : list peak_record) (i : nat)
  : option pyfloat :=
  match i, rest with
  | O, _ => Some (offset peak1)
  | S j, peak2 :: rest' =>
      examined (if fgtb (offset peak1) (onset peak2)
                then with_offset (with_overlap peak2 true) (offset peak1)
                else peak2)
               rest' j
  | S _, [] => None
  end.

Definition examined_offset (peaks : list peak_record) (i : nat)
  : option pyfloat :=
  match peaks with
  | [] => None
  | peak1 :: rest => examined peak1 rest i
  end.

Definition sorted_by_onset (peaks : list peak_record) : Prop :=
  forall i p q, peaks !! i = Some p -> peaks !! S i = Some q ->
                fgtb (onset p) (onset q) = false.

(** A peak from onset to offset, the other entries as [_get_peak_data]
    could have left them. *)
Definition peak_between (on off : Q) : peak_record :=
  {| onset := Finite on; offset := Finite off;
     peak := Finite ((on + off) / 2);
     onset_idx := 0; peak_idx := 0; offset_idx := 0;
     height := Finite 1; width := Finite (off - on);
     shape_factor := Finite 1; rel_shape_factor := Finite 1;
     overlap := false |}.

(** The onset, the offset and the apex of peak number [i] can be read
    and rounded. *)
Definition located (data_of_iteration : dataset)
    (peak_properties : gmap string (list pyfloat)) (i peak_idx : nat)
  : Prop :=
  exists left_ip onset_idx right_ip offset_idx v1 v2 v3 r1 r2 r3,
    property peak_properties "left_ips" i = Ok left_ip
    /\ to_int left_ip = Ok onset_idx
    /\ property peak_properties "right_ips" i = Ok right_ip
    /\ to_int right_ip = Ok offset_idx
    /\ voltage_at data_of_iteration onset_idx = Ok v1
    /\ significant_digits v1 3 = Ok r1
    /\ voltage_at data_of_iteration offset_idx = Ok v2
    /\ significant_digits v2 3 = Ok r2
    /\ voltage_at data_of_iteration (Z.of_nat peak_idx) = Ok v3
    /\ significant_digits v3 3 = Ok r3.

(** The test of [a.any()] on an array of indices. *)
Definition nonzero (i : nat) : bool := negb (i =? 0)%nat.

(** An exception that the handler of [_get_cv_parameters] catches. *)
Definition caught (e : exn) : Prop := e = TypeError \/ e = ValueError.

End Statements.

(** ** Notions used in the statements on the workflow manager *)

Module WorkflowStatements.
Import Py PyFloat WorkflowData WorkflowManager.
#[local] Open Scope Q_scope.

(** The two calls of the teardown. *)
Definition is_wash (ev : event) : bool :=
  match ev with
  | Sampler (wash_cell _ _) | Sampler (wash_autosampler_position _) => true
  | _ => false
  end.

Definition teardown_calls (sample_location : Z) (w : workflow) : list event :=
  (if discard_sample w
   then [Sampler (wash_autosampler_position sample_location)] else [])
  ++ [Sampler (wash_cell (default 5 (wash_volume (wash w)))
                         (default 3%Z (washing_cycles (wash w))))].

Definition teardown_events (sample_location : Z) (w : workflow)
  : list event :=
  [LogInfo MeasurementsCompleted; SetExperimentName "Emptying Cell"]
  ++ teardown_calls sample_location w.

(** The result of a step in the results of a sample run: the analysis
    stored under the name of the step.  The two header strings of the
    dictionary are no results of steps. *)
Definition step_entry (result : result_dict) (step_name : string)
  : option (gmap string value) :=
  match result !! step_name with
  | Some (EntryAnalysis a) => Some a
  | _ => None
  end.

(** A state in which some more events have been recorded and the
    devices have not been touched. *)
Definition logged {World} (s : state World) (evs : list event)
  : state World :=
  {| world := world s; trace := trace s ++ evs |}.

(** The update of the parameters of a step resolves to a keyword: one
    of its settings reads the keyword from the results, and the settings
    before it read values that are no keywords. *)
Definition resolves_to (update_settings : list update_setting)
    (previous_results : result_dict) (keyword : string) : Prop :=
  exists before u after,
    update_settings = before ++ u :: after
    /\ lookup_result previous_results (from_measurement u) (key u)
       = Ok (Str keyword)
    /\ Forall (fun u' =>
                 exists v,
                   lookup_result previous_results (from_measurement u')
                                 (key u') = Ok v
                   /\ forall s, v = Str s -> _exception_keywords s = None)
              before.

(** From [s] to [s'] events were recorded, none of them a call of the
    teardown; a method is quiet when it only takes such steps. *)
Definition quiet {World} (s s' : state World) : Prop :=
  exists evs, trace s' = trace s ++ evs /\ List.filter is_wash evs = [].

Definition quiet_method {World A} (m : M World A) : Prop :=
  forall s s' r, m s = (s', r) -> quiet s s'.

Section WithDevices.
Context {World : Type} (D : devices World).

(** What [_measure_sample] does before the [try] of the context
    manager, and its [finally] block. *)
Definition enter_cell (sample_name : string) (sample_location : Z)
    (w : workflow) : M World unit :=
  _ ← emit (LogInfo (StartingProtocol (protocol_name w) sample_name));
  _ ← emit (SetSampleName sample_name);
  fill_cell D sample_location (sample_volume w) (total_volume w) (purge w).

Definition leave_cell (sample_location : Z) (w : workflow) : M World unit :=
  empty_cell D sample_location (discard_sample w)
             (default 5 (wash_volume (wash w)))
             (default 3%Z (washing_cycles (wash w))).

(** [reaches sample_name steps result s result' s']: from the results
    [result] and the state [s], the loop of [_measure_sample] runs
    through all of [steps], executing or skipping each, and arrives at
    [result'] and [s']. *)
Inductive reaches (sample_name : string)
  : list (string * step_details) -> result_dict -> state World ->
    result_dict -> state World -> Prop :=
| reaches_nil result s : reaches sample_name [] result s result s
| reaches_executed step details rest result s result1 s1 result' s' :
    _execute_step D sample_name step result details s = (s1, Ok result1) ->
    reaches sample_name rest result1 s1 result' s' ->
    reaches sample_name ((step, details) :: rest) result s result' s'
| reaches_skipped step details rest result s s1 result' s' :
    _execute_step D sample_name step result details s
    = (s1, Raise SkipExecution) ->
    reaches sample_name rest result
            (logged s1 [LogInfo (WillBeSkipped step)]) result' s' ->
    reaches sample_name ((step, details) :: rest) result s result' s'.

End WithDevices.

(** Devices for the examples: the world counts the measurements; the
    sampling system always works; the potentiostat has no technique
    named ["EIS"]; the analysis of a square-wave measurement reports the
    keyword given in [verdict] under the key ["next"]. *)
Definition example_devices (verdict : string) : devices nat :=
  {| sampling_system := fun _ n => (n, Ok tt);
     do_measurement := fun technique _ _ n =>
       if String.eqb technique "EIS"
       then (n, Raise (ExternalError "no technique loaded"))
       else (S n, Ok [[Finite 0; Finite (1 # 10); Finite 1; Finite 0]]);
     analyze_data := fun _ _ technique _ _ n =>
       (n, Ok (if String.eqb technique "SWV"
               then {["next" := Str verdict]}
               else {["done" := Num 1]})) |}.

Definition example_measure (technique : string)
    (updates : list update_setting) : step_details :=
  MeasureStep {| technique := technique; parameters := ∅;
                 update_parameters := updates; analysis_settings := ∅;
                 channel := None |}.

Definition example_workflow (second third : string) : workflow :=
  {| protocol_name := "characterization";
     steps :=
       [("first"%string, example_measure "SWV" []);
        ("second"%string,
         example_measure second
           [{| parameter := "Voltage Profile"; from_measurement := "first";
               key := "next" |}]);
        ("third"%string, example_measure third [])];
     sample_volume := 2; total_volume := 10; discard_sample := true;
     purge := 30;
     wash := {| wash_volume := None; washing_cycles := Some 2%Z |} |}.

Definition start : state nat := {| world := O; trace := [] |}.

End WorkflowStatements.

(* ===================================================================== *)
(** * Part II: lemmas and theorems                                        *)
(* ===================================================================== *)

(** ** Results and floats *)

Module PyFacts.
Import Py PyFloat.
#[local] Open Scope Q_scope.

(** One step of a sequence of statements that may raise. *)
Ltac bind_step := cbn [mbind result_bind rbind].
Tactic Notation "bind_step" "in" hyp(H) :=
  cbn [mbind result_bind rbind] in H.

Lemma bind_ok {A B} (r : result A) (k : A -> result B) (b : B) :
  r ≫= k = Ok b -> exists a, r = Ok a /\ k a = Ok b.
Proof. destruct r as [a|e]; [eauto | discriminate]. Qed.

Lemma bind_raise {A B} (r : result A) (k : A -> result B) (e : exn) :
  r = Raise e -> r ≫= k = Raise e.
Proof. now intros ->. Qed.

Lemma fmap_ok {A B} (f : A -> B) (a : A) : f <$> Ok a = Ok (f a).
Proof. reflexivity. Qed.

Lemma fmap_raise {A B} (f : A -> B) (e : exn) :
  f <$> (Raise e : result A) = Raise e.
Proof. reflexivity. Qed.

Lemma rmap_length {A B} (f : A -> result B) (xs : list A) (ys : list B) :
  rmap f xs = Ok ys -> length ys = length xs.
Proof.
  revert ys. induction xs as [|x xs IH]; intros ys H; simpl in H.
  - now inversion H.
  - destruct (f x) as [y|]; [|discriminate]. simpl in H.
    destruct (rmap f xs) as [ys'|]; [|discriminate].
    inversion H; subst. simpl. now rewrite (IH ys').
Qed.

Lemma rmap_lookup {A B} (f : A -> result B) (xs : list A) (ys : list B)
    (i : nat) (x : A) :
  rmap f xs = Ok ys -> xs !! i = Some x ->
  exists y, ys !! i = Some y /\ f x = Ok y.
Proof.
  revert ys i. induction xs as [|x' xs IH]; intros ys i H Hx; [done|].
  simpl in H. destruct (f x') as [y'|] eqn:Hf; [|discriminate].
  simpl in H. destruct (rmap f xs) as [ys'|]; [|discriminate].
  inversion H; subst. destruct i as [|i]; simpl in *.
  - inversion Hx; subst. eauto.
  - eauto.
Qed.

Lemma Qltb_lt (a b : Q) : Qltb a b = true <-> a < b.
Proof.
  unfold Qltb. rewrite negb_true_iff, <- not_true_iff_false, Qle_bool_iff.
  split; [apply Qnot_le_lt | apply Qlt_not_le].
Qed.

Lemma fltb_irrefl (x : pyfloat) : fltb x x = false.
Proof.
  destruct x as [q| | |]; try reflexivity. simpl.
  apply not_true_iff_false. rewrite Qltb_lt. apply Qlt_irrefl.
Qed.

Lemma fltb_asym (x y : pyfloat) : fltb x y = true -> fltb y x = false.
Proof.
  destruct x as [a| | |], y as [b| | |]; simpl; try done.
  rewrite Qltb_lt. intros H. apply not_true_iff_false. rewrite Qltb_lt.
  intros H'. exact (Qlt_irrefl a (Qlt_trans _ _ _ H H')).
Qed.

Lemma fgtb_irrefl (x : pyfloat) : fgtb x x = false.
Proof. apply fltb_irrefl. Qed.

Lemma fneg_nan_iff (x : pyfloat) : is_nan (fneg x) = is_nan x.
Proof. now destruct x. Qed.

End PyFacts.

(** ** significant_digits.py *)

Module SignificantDigitsFacts.
Import Py PyFloat SignificantDigits.
#[local] Open Scope Q_scope.

(** The float literals of the claim denote the doubles that Python
    reads them as. *)
Example literal_0_0034567 :
  literal (34567 # 10000000) = Finite (498162970621811 # 144115188075855872).
Proof. vm_compute. reflexivity. Qed.

Example floor_log10_at_powers_of_ten :
  map floor_log10 [1000; 999; 1; 1 # 1000; 99 # 100000; 12345; 34567 # 10000000]
  = [3; 2; 0; -3; -4; 4; -3]%Z.
Proof. vm_compute. reflexivity. Qed.

Example round_half_even_ties :
  significant_digits (Finite (25 # 10)) 1 = Ok (Finite 2)
  /\ significant_digits (Finite (35 # 10)) 1 = Ok (Finite 4).
Proof. split; vm_compute; reflexivity. Qed.

Lemma significant_digits_nan (no_digits : Z) :
  significant_digits NaN no_digits = Raise ValueError.
Proof. reflexivity. Qed.

Lemma significant_digits_zero (no_digits : Z) :
  significant_digits (Finite 0) no_digits = Raise ValueError.
Proof. reflexivity. Qed.

Lemma significant_digits_infinite (no_digits : Z) :
  significant_digits PInf no_digits = Raise OverflowError
  /\ significant_digits NInf no_digits = Raise OverflowError.
Proof. split; reflexivity. Qed.

(** What [significant_digits] returns is a finite number. *)
Lemma significant_digits_finite (number r : pyfloat) (no_digits : Z) :
  significant_digits number no_digits = Ok r -> is_finite r = true.
Proof.
  unfold significant_digits. intros H.
  apply PyFacts.bind_ok in H as (e & He & H).
  destruct number as [q| | |]; try discriminate.
  unfold py_round in H. destruct (b64 _); now inversion H.
Qed.

(** C10.  Rounding the float [0.0034567] to three significant figures
    returns the float [0.00346], and rounding the integer [12345] to two
    significant figures returns [12000]. *)
Theorem significant_digits_reference_values :
  significant_digits (literal (34567 # 10000000)) 3
    = Ok (literal (346 # 100000))
  /\ significant_digits (Finite 12345) 2 = Ok (Finite 12000).
Proof. split; vm_compute; reflexivity. Qed.

End SignificantDigitsFacts.

(** ** noise_estimation.py *)

Module NoiseEstimationFacts.
Import Py PyFloat Numeric NoiseEstimation Statements.
#[local] Open Scope Q_scope.

Lemma fsum_from (acc : Q) (l : list Q) :
  exists s, foldl fadd (Finite acc) (map Finite l) = Finite s
            /\ s == acc + Qsum l.
Proof.
  revert acc. induction l as [|q l IH]; intros acc; simpl.
  - exists acc. split; [reflexivity | ring].
  - destruct (IH (Qred (acc + q))) as (s & Hs & Heq).
    exists s. split; [exact Hs|]. rewrite Heq, Qred_correct. ring.
Qed.

Lemma fsum_finite (l : list Q) :
  exists s, fsum (map Finite l) = Finite s /\ s == Qsum l.
Proof.
  destruct (fsum_from 0 l) as (s & Hs & Heq).
  exists s. split; [exact Hs|]. rewrite Heq. ring.
Qed.

Lemma fsign_positive (n : nat) :
  (0 < n)%nat -> fsign (inject_Z (Z.of_nat n)) = Gt.
Proof.
  intros H. unfold fsign. apply Qgt_alt. change 0 with (inject_Z 0).
  rewrite <- Zlt_Qlt. lia.
Qed.

Lemma mean_empty : mean [] = NaN.
Proof. reflexivity. Qed.

Lemma mean_finite (l : list Q) :
  l <> [] ->
  exists m, mean (map Finite l) = Finite m
            /\ m == Qsum l / inject_Z (Z.of_nat (length l)).
Proof.
  intros Hl. unfold mean. destruct (fsum_finite l) as (s & -> & Hs).
  rewrite length_map. simpl.
  rewrite fsign_positive by (destruct l; [done | simpl; lia]).
  eexists. split; [reflexivity|]. now rewrite Qred_correct, Hs.
Qed.

Example noise_of_a_noisy_signal :
  estimate_noise SimpleKernels.simple_kernels
    (map Finite [0; 1; 0; 2; 3; 2; 0; 1; 0]) (Finite 2)
  = Ok (Some (Finite 1)).
Proof. vm_compute. reflexivity. Qed.

Example noise_of_a_pure_signal :
  estimate_noise SimpleKernels.simple_kernels
    (map Finite [0; 1; 2; 3; 2; 1; 0]) (Finite 2)
  = Ok None.
Proof. vm_compute. reflexivity. Qed.



End NoiseEstimationFacts.


(** ** baseline_detection.py *)

Module BaselineDetectionFacts.
Import Py PyFloat Numeric BaselineDetection Statements.
#[local] Open Scope Q_scope.

Lemma subscript_0 {A} (a : A) (l : list A) : subscript (a :: l) 0 = Ok a.
Proof. reflexivity. Qed.

Lemma subscript_1 {A} (a b : A) (l : list A) :
  subscript (a :: b :: l) 1 = Ok b.
Proof. reflexivity. Qed.

Lemma subscript_short {A} (l : list A) :
  (length l < 2)%nat -> subscript l 1 = Raise IndexError.
Proof. destruct l as [|a [|b l]]; simpl; [done | done | lia]. Qed.

Lemma subscript_nat {A} (l : list A) (i : nat) :
  subscript l (Z.of_nat i)
  = match l !! i with Some x => Ok x | None => Raise IndexError end.
Proof.
  unfold subscript.
  destruct (Z.ltb_spec (Z.of_nat i) 0) as [?|_]; [lia|].
  destruct (Z.ltb_spec (Z.of_nat i) 0) as [?|_]; [lia|].
  now rewrite Nat2Z.id.
Qed.

(** The two ends of a reversed list. *)
Lemma flip_ends (x : list pyfloat) (n : nat) :
  length x = S (S n) ->
  exists a b, x !! n = Some a /\ x !! S n = Some b
              /\ subscript (flip x) 0 = Ok b
              /\ subscript (flip x) 1 = Ok a.
Proof.
  intros Hlen.
  destruct (lookup_lt_is_Some_2 x n) as [a Ha]; [lia|].
  destruct (lookup_lt_is_Some_2 x (S n)) as [b Hb]; [lia|].
  exists a, b. repeat split; try done.
  - change 0%Z with (Z.of_nat 0). rewrite subscript_nat. unfold flip.
    rewrite reverse_lookup by lia. rewrite Hlen.
    replace (S (S n) - 1)%nat with (S n) by lia. now rewrite Hb.
  - change 1%Z with (Z.of_nat 1). rewrite subscript_nat. unfold flip.
    rewrite reverse_lookup by lia. rewrite Hlen.
    replace (S (S n) - 2)%nat with n by lia. now rewrite Ha.
Qed.

Lemma flip_flip {A} (l : list A) : flip (flip l) = l.
Proof. apply reverse_involutive. Qed.

Lemma flip_map {A B} (f : A -> B) (l : list A) :
  flip (map f l) = map f (flip l).
Proof. unfold flip. symmetry. apply (fmap_reverse f l). Qed.

(** A detection that had to turn its input around returns the baseline
    of the turned input, turned back. *)
Lemma detection_of_descending (K : kernels) (x y : list pyfloat)
    (x0 x1 : pyfloat) :
  subscript x 0 = Ok x0 -> subscript x 1 = Ok x1 ->
  fltb x1 x0 = true ->
  forall u0 u1, subscript (flip x) 0 = Ok u0 ->
                subscript (flip x) 1 = Ok u1 ->
                fltb u1 u0 = false ->
  rubberband_baseline_detection K x y
  = flip <$> rubberband_baseline_detection K (flip x) (flip y).
Proof.
  intros H0 H1 Hlt u0 u1 Hu0 Hu1 Hu.
  unfold rubberband_baseline_detection.
  rewrite H0, H1, Hu0, Hu1. simpl. rewrite Hlt, Hu. simpl.
  destruct (argmax _) as [i|e]; [simpl|reflexivity].
  destruct (subscript (flip y) (Z.of_nat i)) as [ym|e]; [simpl|reflexivity].
  destruct (column_stack _ _) as [pts|e]; [simpl|reflexivity].
  destruct (convex_hull_vertices K pts) as [h|e]; [simpl|reflexivity].
  destruct (argmin_nat h) as [start|e]; [simpl|reflexivity].
  destruct (argmax_nat _) as [stop|e]; [simpl|reflexivity].
  destruct (take_indices (flip x) _) as [xp|e]; [simpl|reflexivity].
  destruct (take_indices _ _) as [fp|e]; [simpl|reflexivity].
  destruct (interp K _ xp fp) as [b|e]; [simpl|reflexivity].
  destruct (negb (fltb ym (median (flip y)))); [reflexivity|].
  unfold fmap, result_fmap. simpl. now rewrite flip_map.
Qed.

(** The orientation test looks at the first two abscissae only.  When
    it gives opposite answers on an array and on its reversal, the two
    detections are one computation. *)
Lemma orientation_invariance_by_ends (K : kernels) (x y : list pyfloat)
    (x0 x1 u0 u1 : pyfloat) :
  subscript x 0 = Ok x0 -> subscript x 1 = Ok x1 ->
  subscript (flip x) 0 = Ok u0 -> subscript (flip x) 1 = Ok u1 ->
  fltb x1 x0 <> fltb u1 u0 ->
  flip <$> rubberband_baseline_detection K (flip x) (flip y)
  = rubberband_baseline_detection K x y.
Proof.
  intros H0 H1 Hu0 Hu1 Hne.
  destruct (fltb x1 x0) eqn:Hx, (fltb u1 u0) eqn:Hu; try congruence.
  - symmetry.
    exact (detection_of_descending K x y x0 x1 H0 H1 Hx u0 u1 Hu0 Hu1 Hu).
  - rewrite (detection_of_descending K (flip x) (flip y) u0 u1 Hu0 Hu1 Hu
                                     x0 x1); rewrite ?flip_flip; try done.
    destruct (rubberband_baseline_detection K x y) as [l|e]; [|reflexivity].
    unfold fmap, result_fmap. simpl. now rewrite flip_flip.
Qed.


Example baseline_of_a_peak :
  rubberband_baseline_detection SimpleKernels.simple_kernels
    (map Finite [0; 1; 2; 3; 4]) (map Finite [0; 1; 5; 1; 2])
  = Ok [Finite 0; Finite (1 # 3); Finite (2 # 3); Finite 1; Finite 1].
Proof. vm_compute. reflexivity. Qed.

Example baseline_of_a_reversed_peak :
  rubberband_baseline_detection SimpleKernels.simple_kernels
    (map Finite [4; 3; 2; 1; 0]) (map Finite [2; 1; 5; 1; 0])
  = Ok [Finite 1; Finite 1; Finite (2 # 3); Finite (1 # 3); Finite 0].
Proof. vm_compute. reflexivity. Qed.


End BaselineDetectionFacts.

(** ** CVAnalyzer.py *)

Module CVAnalyzerFacts.
Import Py PyFloat Numeric EChemDataAnalyzer CVAnalyzer Statements.
#[local] Open Scope Q_scope.

Lemma rmap_total {A B} (f : A -> result B) (xs : list A) :
  (forall x, exists y, f x = Ok y) -> exists ys, rmap f xs = Ok ys.
Proof.
  intros Hf. induction xs as [|x xs [ys IH]]; simpl; [eauto|].
  destruct (Hf x) as [y ->]. simpl. rewrite IH. simpl. eauto.
Qed.

Lemma range_length (lo hi : Z) : length (range lo hi) = Z.to_nat (hi - lo).
Proof. unfold range. now rewrite length_map, length_seq. Qed.

Lemma Qtruncate_integer (q : Q) (k : Z) : q == inject_Z k -> Qtruncate q = k.
Proof.
  intros H. unfold Qtruncate. destruct (Qle_bool 0 q).
  - now rewrite (Qfloor_comp _ _ H), Qfloor_Z.
  - now rewrite (Qceiling_comp _ _ H), Qceiling_Z.
Qed.

(** The loop of [_separate_cycles] drops the cycles 0 and 1 of an
    iteration and keeps one array for each of the others. *)
Lemma cycles_of_iteration_length (data : dataset) (k : Z) :
  cycle_count data k ->
  exists cycles, cycles_of_iteration data = Ok cycles
                 /\ length cycles = Z.to_nat (k - 2).
Proof.
  intros (col & q & Hcol & Hmax & Hq). unfold cycles_of_iteration.
  rewrite Hcol. simpl. rewrite Hmax. simpl.
  rewrite (Qtruncate_integer _ k).
  2:{ rewrite Qred_correct, Hq. replace k with (k - 1 + 1)%Z at 2 by lia.
      now rewrite (inject_Z_plus (k - 1) 1). }
  destruct (rmap_total (fun cycle => rows_where data 3 cycle) (range 2 k))
    as [cycles Hc].
  { intros c. unfold rows_where. rewrite Hcol. simpl. eauto. }
  exists cycles. split; [exact Hc|].
  now rewrite (PyFacts.rmap_length _ _ _ Hc), range_length.
Qed.

Lemma separate_cycles_loop_lengths (iterations : list dataset) (k : Z) :
  Forall (fun data => cycle_count data k) iterations ->
  exists cycles,
    separate_cycles_loop iterations = Ok cycles
    /\ length cycles = length iterations
    /\ Forall (fun c => length c = Z.to_nat (k - 2)) cycles.
Proof.
  unfold separate_cycles_loop.
  induction 1 as [|data rest Hd _ (cycles & IH & Hlen & Hall)]; simpl.
  - exists []. auto.
  - destruct (cycles_of_iteration_length data k Hd) as (c & -> & Hc). simpl.
    rewrite IH. simpl. exists (c :: cycles). simpl. auto.
Qed.

(** Whatever the loop has built, the statement after it subscripts the
    Python list [self._raw_data] with a tuple. *)
Lemma separate_cycles_type_error (iterations : list dataset)
    (cycles : list (list dataset)) :
  separate_cycles_loop iterations = Ok cycles ->
  _separate_cycles iterations = Raise TypeError.
Proof. intros H. unfold _separate_cycles. now rewrite H. Qed.

Lemma separate_cycles_never_returns (iterations : list dataset)
    (r : raw_data) :
  _separate_cycles iterations <> Ok r.
Proof.
  unfold _separate_cycles.
  destruct (separate_cycles_loop iterations); discriminate.
Qed.

(** C7.  On iterations of [k] cycles each, the loop of
    [_separate_cycles] leaves [k - 2] cycles per iteration, and the
    method then raises [TypeError] at line 40 instead of returning: the
    constructor of the CV analyzer never completes. *)
Theorem separate_cycles_skips_two_then_raises
    (iterations : list dataset) (k : Z) :
  Forall (fun data => cycle_count data k) iterations ->
  (exists cycles,
     separate_cycles_loop iterations = Ok cycles
     /\ length cycles = length iterations
     /\ Forall (fun c => length c = Z.to_nat (k - 2)) cycles)
  /\ _separate_cycles iterations = Raise TypeError.
Proof.
  intros H.
  destruct (separate_cycles_loop_lengths iterations k H)
    as (cycles & Hloop & Hlen & Hall).
  split; [eauto|]. exact (separate_cycles_type_error _ _ Hloop).
Qed.

(** One iteration of five cycles, one sample per cycle; the columns are
    time, voltage, current, cycle and iteration. *)
Lemma separate_cycles_skips_two_then_raises_witness :
  let row (c : Z) :=
    [Finite (inject_Z c); Finite (1 # 2); Finite (1 # 10);
     Finite (inject_Z c); Finite 0] in
  let data := map row [0; 1; 2; 3; 4]%Z in
  _separate_iterations data = Ok [data]
  /\ (exists cycles,
        separate_cycles_loop [data] = Ok cycles
        /\ length cycles = 1%nat
        /\ Forall (fun c => length c = 3%nat) cycles)
  /\ _separate_cycles [data] = Raise TypeError
  /\ init data = Raise TypeError.
Proof.
  intros row data. split; [vm_compute; reflexivity|].
  assert (Forall (fun d => cycle_count d 5) [data]) as H.
  { constructor; [|constructor].
    exists (map (fun c => Finite (inject_Z c)) [0; 1; 2; 3; 4]%Z), 4.
    repeat split; vm_compute; reflexivity. }
  destruct (separate_cycles_skips_two_then_raises [data] 5 H) as [H1 H2].
  split; [exact H1|]. split; [exact H2|]. vm_compute. reflexivity.
Defined.

End CVAnalyzerFacts.

(** ** PulseTechniqueAnalyzer.py: the overlap loop *)

Module OverlapFacts.
Import Py PyFloat Numeric PeakSelection PulseTechniqueAnalyzer Statements.
#[local] Open Scope Q_scope.

(** The loop over the indices is the recursion [sweep]. *)
Lemma foldl_reconcile_sweep (rest done : list peak_record)
    (peak1 : peak_record) :
  foldl reconcile_pair (done ++ peak1 :: rest)
        (seq (length done) (length rest))
  = done ++ sweep peak1 rest.
Proof.
  revert done peak1.
  induction rest as [|peak2 rest IH]; intros done peak1; [reflexivity|].
  cbn [length seq foldl sweep]. unfold reconcile_pair at 2.
  rewrite (list_lookup_middle done (peak2 :: rest) peak1 (length done) eq_refl).
  replace (done ++ peak1 :: peak2 :: rest)
    with ((done ++ [peak1]) ++ peak2 :: rest) at 1
    by now rewrite <- app_assoc.
  rewrite (list_lookup_middle (done ++ [peak1]) rest peak2 (S (length done)))
    by (rewrite length_app; simpl; lia).
  cbn [offset onset with_overlap with_offset].
  destruct (fgtb (offset peak1) (onset peak2)).
  - set (p1 := with_offset (with_overlap peak1 true) (onset peak2)).
    set (p2 := with_offset (with_overlap peak2 true) (offset peak1)).
    assert (<[length done := p1]>
              (<[S (length done) := p2]> (done ++ peak1 :: peak2 :: rest))
            = (done ++ [p1]) ++ p2 :: rest) as ->.
    { rewrite (insert_app_r_alt done) by lia.
      replace (S (length done) - length done)%nat with 1%nat by lia.
      simpl. rewrite insert_app_r_alt by lia.
      replace (length done - length done)%nat with O by lia.
      simpl. now rewrite <- app_assoc. }
    specialize (IH (done ++ [p1]) p2).
    rewrite length_app in IH. simpl in IH.
    replace (length done + 1)%nat with (S (length done)) in IH by lia.
    rewrite IH. now rewrite <- app_assoc.
  - specialize (IH (done ++ [peak1]) peak2).
    rewrite length_app in IH. simpl in IH.
    replace (length done + 1)%nat with (S (length done)) in IH by lia.
    rewrite <- app_assoc in IH. simpl in IH. rewrite IH.
    now rewrite <- app_assoc.
Qed.

Lemma reconcile_overlaps_sweep (peak1 : peak_record)
    (rest : list peak_record) :
  reconcile_overlaps (peak1 :: rest) = sweep peak1 rest.
Proof.
  unfold reconcile_overlaps. simpl length.
  replace (S (length rest) - 1)%nat with (length rest) by lia.
  exact (foldl_reconcile_sweep rest [] peak1).
Qed.

Lemma reconcile_overlaps_nil : reconcile_overlaps [] = [].
Proof. reflexivity. Qed.

Lemma sweep_length (rest : list peak_record) (peak1 : peak_record) :
  length (sweep peak1 rest) = S (length rest).
Proof.
  revert peak1. induction rest as [|peak2 rest IH]; intros peak1; simpl;
    [reflexivity|].
  destruct (fgtb _ _); simpl; now rewrite IH.
Qed.

(** The first peak of the result keeps its onset, and its flag if it is
    set. *)
Lemma sweep_head (rest : list peak_record) (peak1 : peak_record) :
  exists h t, sweep peak1 rest = h :: t
              /\ onset h = onset peak1
              /\ (overlap peak1 = true -> overlap h = true).
Proof.
  destruct rest as [|peak2 rest]; simpl; [eauto|].
  destruct (fgtb _ _); eauto.
Qed.

Lemma sweep_onsets (rest : list peak_record) (peak1 : peak_record)
    (i : nat) :
  onset <$> sweep peak1 rest !! i = onset <$> (peak1 :: rest) !! i.
Proof.
  revert peak1 i. induction rest as [|peak2 rest IH]; intros peak1 i;
    [reflexivity|].
  simpl. destruct (fgtb _ _); destruct i as [|i]; simpl; try reflexivity;
    rewrite IH; now destruct i.
Qed.

Lemma sweep_adjacent (rest : list peak_record) (peak1 : peak_record)
    (i : nat) (p q : peak_record) :
  sweep peak1 rest !! i = Some p -> sweep peak1 rest !! S i = Some q ->
  fgtb (offset p) (onset q) = false.
Proof.
  revert peak1 i. induction rest as [|peak2 rest IH]; intros peak1 i;
    [destruct i; discriminate|].
  simpl. destruct (fgtb (offset peak1) (onset peak2)) eqn:Hcmp.
  - destruct i as [|i]; simpl; [|apply IH].
    intros [= <-] Hq.
    destruct (sweep_head rest (with_offset (with_overlap peak2 true)
                                           (offset peak1)))
      as (h & t & Hs & Hon & _).
    rewrite Hs in Hq. simpl in Hq. inversion Hq; subst q.
    rewrite Hon. simpl. apply PyFacts.fgtb_irrefl.
  - destruct i as [|i]; simpl; [|apply IH].
    intros [= <-] Hq.
    destruct (sweep_head rest peak2) as (h & t & Hs & Hon & _).
    rewrite Hs in Hq. simpl in Hq. inversion Hq; subst q.
    now rewrite Hon.
Qed.

Lemma sweep_examined (rest : list peak_record) (peak1 : peak_record)
    (i : nat) (c : pyfloat) (q0 : peak_record) :
  examined peak1 rest i = Some c -> rest !! i = Some q0 ->
  fgtb c (onset q0) = true ->
  exists p q, sweep peak1 rest !! i = Some p
              /\ sweep peak1 rest !! S i = Some q
              /\ overlap p = true /\ overlap q = true
              /\ offset p = onset q.
Proof.
  revert peak1 i. induction rest as [|peak2 rest IH]; intros peak1 i;
    [destruct i; discriminate|].
  destruct i as [|i]; simpl.
  - intros [= <-] [= <-] Hcmp. rewrite Hcmp.
    destruct (sweep_head rest (with_offset (with_overlap peak2 true)
                                           (offset peak1)))
      as (h & t & Hs & Hon & Hov).
    rewrite Hs. simpl. eexists _, h. repeat split; simpl; auto.
  - intros Hex Hq0 Hcmp.
    destruct (fgtb (offset peak1) (onset peak2)); simpl;
      exact (IH _ i Hex Hq0 Hcmp).
Qed.

Lemma examined_step (rest : list peak_record) (peak1 : peak_record)
    (i : nat) (c : pyfloat) (q : peak_record) :
  examined peak1 rest i = Some c -> rest !! i = Some q ->
  examined peak1 rest (S i)
  = Some (if fgtb c (onset q) then c else offset q).
Proof.
  revert peak1 i. induction rest as [|peak2 rest IH]; intros peak1 i;
    [destruct i; discriminate|].
  destruct i as [|i].
  - intros [= <-] [= <-]. simpl.
    destruct (fgtb (offset peak1) (onset peak2)); now destruct rest.
  - intros Hex Hq. exact (IH _ i Hex Hq).
Qed.

(** The peaks of the counterexample: the second peak reaches from 1 to
    10 and overlaps the third, which starts at 5; but when the loop
    comes to this pair the second peak has taken over the offset 2 of
    the first. *)
Example three_peaks :
  reconcile_overlaps [peak_between 0 2; peak_between 1 10; peak_between 5 12]
  = [with_overlap (with_offset (peak_between 0 2) (Finite 1)) true;
     with_overlap (with_offset (peak_between 1 10) (Finite 2)) true;
     peak_between 5 12].
Proof. vm_compute. reflexivity. Qed.




End OverlapFacts.

(** ** PulseTechniqueAnalyzer.py: peak picking *)

Module PeakPickingFacts.
Import Py PyFloat Numeric SignificantDigits PeakSelection EChemDataAnalyzer.
Import PulseTechniqueAnalyzer Statements PyFacts.
#[local] Open Scope Q_scope.

(** The test ["peak_heights" in [peak_properties.keys()]] compares a
    string with the one element of the list, a keys view. *)
Lemma peak_heights_test_is_false
    (peak_properties : gmap string (list pyfloat)) :
  py_in (ObjStr "peak_heights") [ObjKeys (elements (dom peak_properties))]
  = false.
Proof. reflexivity. Qed.

Lemma any_nonzero (peaks_picked : list nat) :
  existsb nonzero peaks_picked = true
  <-> exists i, i ∈ peaks_picked /\ i <> 0%nat.
Proof.
  rewrite existsb_exists. split.
  - intros (i & Hin & Hi). exists i. split; [now apply list_elem_of_In|].
    unfold nonzero in Hi. apply negb_true_iff, Nat.eqb_neq in Hi. exact Hi.
  - intros (i & Hin & Hi). exists i. split; [now apply list_elem_of_In|].
    unfold nonzero. now apply negb_true_iff, Nat.eqb_neq.
Qed.

Lemma heights_replaced (peak_properties : gmap string (list pyfloat))
    (n i : nat) :
  (i < n)%nat ->
  property (<["peak_heights" := replicate n NaN]> peak_properties)
           "peak_heights" i = Ok NaN.
Proof.
  intros Hi. unfold property, dict_get. rewrite lookup_insert_eq. simpl.
  rewrite BaselineDetectionFacts.subscript_nat.
  now rewrite lookup_replicate_2.
Qed.

Lemma other_properties_kept (peak_properties : gmap string (list pyfloat))
    (l : list pyfloat) (key : string) (i : nat) :
  key <> "peak_heights"%string ->
  property (<["peak_heights" := l]> peak_properties) key i
  = property peak_properties key i.
Proof.
  intros Hk. unfold property, dict_get. now rewrite lookup_insert_ne.
Qed.

(** The rounding of the height of a peak whose height is NaN. *)
Lemma nan_height_raises (redox_process : string) :
  significant_digits
    (if String.eqb redox_process "reduction" then fneg NaN else NaN) 3
  = Raise ValueError.
Proof. now destruct (String.eqb _ _). Qed.

(** With a NaN among the heights, the dictionary of a peak is never
    built. *)
Lemma peak_entry_raises (data_of_iteration : dataset)
    (peak_properties : gmap string (list pyfloat)) (redox_process : string)
    (max_shape_factor : pyfloat) (i peak_idx : nat) :
  property peak_properties "peak_heights" i = Ok NaN ->
  exists e, peak_entry data_of_iteration peak_properties redox_process
                       max_shape_factor i peak_idx = Raise e.
Proof.
  intros Hh. unfold peak_entry. rewrite Hh.
  repeat lazymatch goal with
         | |- exists e, mbind _ (significant_digits (if _ then _ else _) 3)
                        = Raise e =>
             rewrite nan_height_raises; bind_step; eauto
         | |- exists e, mbind _ (Ok _) = Raise e => bind_step
         | |- exists e, mbind _ ?r = Raise e =>
             destruct r; bind_step; [|solve [eauto]]
         end.
Qed.

(** When the three positions of the peak can be read and rounded, the
    exception is the [ValueError] of the NaN height. *)
Lemma peak_entry_value_error (data_of_iteration : dataset)
    (peak_properties : gmap string (list pyfloat)) (redox_process : string)
    (max_shape_factor : pyfloat) (i peak_idx : nat) :
  property peak_properties "peak_heights" i = Ok NaN ->
  located data_of_iteration peak_properties i peak_idx ->
  peak_entry data_of_iteration peak_properties redox_process
             max_shape_factor i peak_idx = Raise ValueError.
Proof.
  intros Hh (l & oi & r & fi & v1 & v2 & v3 & r1 & r2 & r3
             & Hl & Hoi & Hr & Hfi & Hv1 & Hr1 & Hv2 & Hr2 & Hv3 & Hr3).
  unfold peak_entry. rewrite Hh, Hl. bind_step. rewrite Hoi. bind_step.
  rewrite Hr. bind_step. rewrite Hfi. bind_step. rewrite Hv1. bind_step.
  rewrite Hr1. bind_step. rewrite Hv2. bind_step. rewrite Hr2. bind_step.
  rewrite Hv3. bind_step. rewrite Hr3. bind_step.
  now rewrite nan_height_raises.
Qed.

Lemma located_insert (data_of_iteration : dataset)
    (peak_properties : gmap string (list pyfloat)) (l : list pyfloat)
    (i peak_idx : nat) :
  located data_of_iteration peak_properties i peak_idx ->
  located data_of_iteration (<["peak_heights" := l]> peak_properties)
          i peak_idx.
Proof.
  intros (lp & oi & r & fi & v1 & v2 & v3 & r1 & r2 & r3 & Hl & Hoi & Hr & H).
  exists lp, oi, r, fi, v1, v2, v3, r1, r2, r3.
  rewrite !other_properties_kept by discriminate. auto.
Qed.

Lemma get_peak_data_unfold (data_of_iteration : dataset)
    (peaks_picked : list nat) (peak_properties : gmap string (list pyfloat))
    (redox_process : string) :
  _get_peak_data data_of_iteration peaks_picked peak_properties redox_process
  = if existsb nonzero peaks_picked then
      peaks ← rmap (fun '(i, peak_idx) =>
                      peak_entry data_of_iteration
                        (<["peak_heights" :=
                             replicate (length peaks_picked) NaN]>
                           peak_properties)
                        redox_process NaN i peak_idx)
                   (zip (seq 0 (length peaks_picked)) peaks_picked);
      Ok (reconcile_overlaps peaks)
    else Ok [].
Proof.
  unfold _get_peak_data. fold nonzero.
  now destruct (existsb nonzero peaks_picked).
Qed.

Lemma get_peak_data_raises (data_of_iteration : dataset)
    (peaks_picked : list nat) (peak_properties : gmap string (list pyfloat))
    (redox_process : string) :
  existsb nonzero peaks_picked = true ->
  exists e, _get_peak_data data_of_iteration peaks_picked peak_properties
                           redox_process = Raise e.
Proof.
  intros Hany. rewrite get_peak_data_unfold, Hany.
  destruct peaks_picked as [|p0 rest]; [discriminate|].
  cbn [length seq zip zip_with rmap].
  destruct (peak_entry_raises data_of_iteration
              (<["peak_heights" := replicate (S (length rest)) NaN]>
                 peak_properties)
              redox_process NaN 0 p0) as [e He].
  { apply heights_replaced. lia. }
  exists e. unfold zip. simpl. simpl in He. now rewrite He.
Qed.

Lemma get_peak_data_ok (data_of_iteration : dataset)
    (peaks_picked : list nat) (peak_properties : gmap string (list pyfloat))
    (redox_process : string) (peaks : list peak_record) :
  _get_peak_data data_of_iteration peaks_picked peak_properties redox_process
  = Ok peaks ->
  peaks = [] /\ Forall (fun i => i = 0%nat) peaks_picked.
Proof.
  intros H. destruct (existsb nonzero peaks_picked) eqn:Hany.
  - destruct (get_peak_data_raises data_of_iteration peaks_picked
                peak_properties redox_process Hany) as [e He].
    congruence.
  - rewrite get_peak_data_unfold, Hany in H. inversion H. split; [done|].
    apply Forall_forall. intros i Hi.
    destruct (decide (i = 0%nat)) as [|Hne]; [done|].
    assert (existsb nonzero peaks_picked = true) as Habs; [|congruence].
    apply any_nonzero. exists i. split; [exact Hi | done].
Qed.

End PeakPickingFacts.

Module PeakPickingTheorems.
Import Py PyFloat Numeric SignificantDigits PeakSelection EChemDataAnalyzer.
Import PulseTechniqueAnalyzer Statements PyFacts PeakPickingFacts.
#[local] Open Scope Q_scope.

Lemma get_peak_data_value_error (data_of_iteration : dataset)
    (p0 : nat) (rest : list nat)
    (peak_properties : gmap string (list pyfloat)) (redox_process : string) :
  existsb nonzero (p0 :: rest) = true ->
  located data_of_iteration peak_properties 0 p0 ->
  _get_peak_data data_of_iteration (p0 :: rest) peak_properties redox_process
  = Raise ValueError.
Proof.
  intros Hany Hloc. rewrite get_peak_data_unfold, Hany.
  cbn [length seq].
  pose proof (peak_entry_value_error data_of_iteration
                (<["peak_heights" := replicate (S (length rest)) NaN]>
                   peak_properties)
                redox_process NaN 0 p0) as He.
  unfold zip. cbn [zip_with rmap]. rewrite He; [reflexivity | |].
  - apply heights_replaced. lia.
  - now apply located_insert.
Qed.

(** What [_pick_peaks] leaves when it returns. *)
Lemma pick_peaks_ok (K : kernels) (self self' : analyzer)
    (data_of_iteration : dataset) (iteration : nat)
    (min_peak_width min_signal_noise rel_height : pyfloat)
    (redox_process : string) :
  _pick_peaks K self data_of_iteration iteration min_peak_width
              min_signal_noise rel_height redox_process = Ok self' ->
  _raw_data self' = _raw_data self
  /\ (iteration < length (peak_picking self))%nat
  /\ peak_picking self' = <[iteration := Some []]> (peak_picking self)
  /\ exists peaks_picked peak_properties,
       detect_peaks K data_of_iteration min_peak_width min_signal_noise
                    rel_height = Ok (peaks_picked, peak_properties)
       /\ Forall (fun i => i = 0%nat) peaks_picked.
Proof.
  unfold _pick_peaks. intros H.
  destruct (detect_peaks _ _ _ _ _) as [[picked props]|]; [|discriminate].
  bind_step in H.
  destruct (_get_peak_data _ _ _ _) as [peaks|] eqn:Hp; [|discriminate].
  bind_step in H. apply get_peak_data_ok in Hp as [-> Hzero].
  destruct (Nat.ltb_spec iteration (length (peak_picking self)));
    [|discriminate].
  inversion H; subst; simpl. eauto 10.
Qed.

Lemma peak_picking_loop (K : kernels)
    (min_peak_width min_signal_noise rel_height : pyfloat)
    (indices : list nat) (self self' : analyzer) :
  rfold (fun self no_iteration =>
           data_of_iteration ←
             subscript (_raw_data self) (Z.of_nat no_iteration);
           redox_process ← _classify_oxidation_reduction data_of_iteration;
           data_of_iteration ←
             (if String.eqb redox_process "reduction"
              then _process_reduction_data data_of_iteration
              else Ok data_of_iteration);
           _pick_peaks K self data_of_iteration no_iteration min_peak_width
                       min_signal_noise rel_height redox_process)
        self indices = Ok self' ->
  _raw_data self' = _raw_data self
  /\ (forall j, peak_picking self' !! j = Some (Some [])
                \/ peak_picking self' !! j = peak_picking self !! j)
  /\ (forall i, i ∈ indices -> peak_picking self' !! i = Some (Some [])).
Proof.
  revert self. induction indices as [|i indices IH]; intros self H.
  - inversion H; subst. repeat split; auto. intros i Hi. inversion Hi.
  - cbn [rfold] in H. apply bind_ok in H as (self1 & Hbody & Hrest).
    apply bind_ok in Hbody as (d & _ & Hbody).
    apply bind_ok in Hbody as (redox & _ & Hbody).
    apply bind_ok in Hbody as (d' & _ & Hbody).
    apply pick_peaks_ok in Hbody as (Hraw & Hlt & Hpp & _).
    destruct (IH self1 Hrest) as (Hraw' & Hkeep & Hall).
    split; [congruence|]. split.
    + intros j. destruct (Hkeep j) as [Hj|Hj]; [now left|].
      rewrite Hj, Hpp. destruct (decide (i = j)) as [->|Hne].
      * left. now rewrite list_lookup_insert_eq.
      * right. now rewrite list_lookup_insert_ne.
    + intros k Hk. apply elem_of_cons in Hk as [->|Hk]; [|now apply Hall].
      destruct (Hkeep i) as [Hi|Hi]; [exact Hi|].
      rewrite Hi, Hpp. now rewrite list_lookup_insert_eq.
Qed.


(** A sweep with one peak three samples wide and one spike of noise:
    the step raises. *)
Example peak_picking_of_a_peak :
  let row (v c : Q) := [Finite 0; Finite v; Finite c; Finite 0] in
  let data :=
    [row (1 # 10) 0; row (2 # 10) 3; row (3 # 10) 4; row (4 # 10) 3;
     row (5 # 10) 0; row (6 # 10) (1 # 2); row (7 # 10) 0] in
  let K := SimpleKernels.simple_kernels in
  fst <$> detect_peaks K data (Finite 2) (Finite 3) (Finite (1 # 2))
  = Ok [2%nat]
  /\ (self ← init data;
      _peak_picking K self (Finite 2) (Finite 3) (Finite (1 # 2)))
     = Raise ValueError.
Proof. split; vm_compute; reflexivity. Qed.

(** The same sweep without the spike and with a flat top: no peak is
    detected and the step completes. *)
Example peak_picking_without_peaks :
  let row (v c : Q) := [Finite 0; Finite v; Finite c; Finite 0] in
  let data :=
    [row (1 # 10) 0; row (2 # 10) 3; row (3 # 10) 3; row (4 # 10) 3;
     row (5 # 10) 0] in
  let K := SimpleKernels.simple_kernels in
  peak_picking
    <$> (self ← init data;
         _peak_picking K self (Finite 2) (Finite 3) (Finite (1 # 2)))
  = Ok [Some []].
Proof. vm_compute. reflexivity. Qed.


End PeakPickingTheorems.

(** ** PulseTechniqueAnalyzer.py: the CV parameters *)

Module CVParametersFacts.
Import Py PyFloat Numeric PeakSelection EChemDataAnalyzer.
Import PulseTechniqueAnalyzer Statements PyFacts.
#[local] Open Scope Q_scope.

Section Step.
Context (self : analyzer) (filters : list filter_clause)
        (selection : selection_clause)
        (min_voltage max_voltage additional_voltage : pyfloat).

Let turn := cv_parameters_turn self filters selection min_voltage max_voltage
                               additional_voltage.

(** The handler: a caught exception leaves the table as it is and the
    loop goes on. *)
Lemma turn_caught (table : list (list pyfloat)) (i : nat) (e : exn) :
  select_peak_of_interest self filters selection i = Raise e ->
  caught e -> turn table i = Ok table.
Proof.
  intros H [-> | ->]; unfold turn, cv_parameters_turn; now rewrite H.
Qed.

(** An exception that is not caught ends the step. *)
Lemma turn_not_caught (table : list (list pyfloat)) (i : nat) (e : exn) :
  select_peak_of_interest self filters selection i = Raise e ->
  ~ caught e -> turn table i = Raise e.
Proof.
  intros H Hn. unfold turn, cv_parameters_turn. rewrite H.
  destruct e; try reflexivity; exfalso; apply Hn; unfold caught; auto.
Qed.

(** A turn writes at most its own row. *)
Lemma turn_other_rows (table table' : list (list pyfloat)) (i j : nat) :
  turn table i = Ok table' -> i <> j -> table' !! j = table !! j.
Proof.
  unfold turn, cv_parameters_turn. intros H Hne.
  destruct (select_peak_of_interest self filters selection i)
    as [[idx sel]|e].
  - destruct (picked_peaks self i); [|discriminate]. bind_step in H.
    destruct (neighbour_bounds _ _ _). inversion H; subst.
    now rewrite list_lookup_insert_ne.
  - destruct e; inversion H; subst; reflexivity.
Qed.

Lemma turn_selected (table : list (list pyfloat)) (i : nat)
    (r : nat * peak_record) :
  select_peak_of_interest self filters selection i = Ok r ->
  exists table', turn table i = Ok table'.
Proof.
  intros H. unfold turn, cv_parameters_turn. rewrite H. destruct r as [idx sel].
  unfold select_peak_of_interest in H.
  destruct (picked_peaks self i); [|discriminate]. bind_step.
  destruct (neighbour_bounds _ _ _). eauto.
Qed.

(** The row of a failed iteration survives the whole loop. *)
Lemma loop_keeps_row (indices : list nat) (table table' : list (list pyfloat))
    (i : nat) (e : exn) :
  select_peak_of_interest self filters selection i = Raise e -> caught e ->
  rfold turn table indices = Ok table' -> table' !! i = table !! i.
Proof.
  intros Hsel Hc. revert table.
  induction indices as [|j indices IH]; intros table H.
  - now inversion H.
  - cbn [rfold] in H. apply bind_ok in H as (table1 & Hturn & Hrest).
    rewrite (IH _ Hrest). destruct (decide (j = i)) as [->|Hne].
    + rewrite (turn_caught table i e Hsel Hc) in Hturn. now inversion Hturn.
    + exact (turn_other_rows _ _ _ _ Hturn Hne).
Qed.

(** The loop completes unless an iteration raises what the handler does
    not catch. *)
Lemma loop_completes (indices : list nat) (table : list (list pyfloat)) :
  (forall j e, j ∈ indices ->
               select_peak_of_interest self filters selection j = Raise e ->
               caught e) ->
  exists table', rfold turn table indices = Ok table'.
Proof.
  revert table. induction indices as [|j indices IH]; intros table H.
  - simpl. eauto.
  - cbn [rfold].
    assert (exists table1, turn table j = Ok table1) as [table1 ->].
    { destruct (select_peak_of_interest self filters selection j) eqn:Hsel.
      - exact (turn_selected table j _ Hsel).
      - exists table. apply (turn_caught table j e Hsel).
        apply (H j e); [apply list_elem_of_here | exact Hsel]. }
    bind_step. apply IH. intros k e Hk. apply H. now apply list_elem_of_further.
Qed.

End Step.

Lemma zeros_row (rows columns i : nat) :
  (i < rows)%nat ->
  zeros rows columns !! i = Some (replicate columns (Finite 0)).
Proof. intros H. unfold zeros. now apply lookup_replicate_2. Qed.

(** An empty list of peaks and the selection of the highest: the
    selection raises [ValueError], the row stays at zero and is not the
    window of the global bounds [-1] and [1]. *)
Example empty_iteration :
  let self := {| _raw_data := [[]]; peak_picking := [Some []];
                 cv_parameters := None |} in
  let selection := {| selection_key := "height";
                      selection_operation := py_max |} in
  select_peak_of_interest self [] selection 0 = Raise ValueError
  /\ cv_parameters_table self [] selection (Finite (-1)) (Finite 1)
                         (Finite (1 # 10))
     = Ok [[Finite 0; Finite 0; Finite 0; Finite 0; Finite 0]].
Proof. split; reflexivity. Qed.

(** C6, as stated, fails: the selection fails for the only iteration,
    the step completes, and the row of the iteration is not the window
    of the global bounds. *)
Lemma fallback_claim_counterexample :
  let self := {| _raw_data := [[]]; peak_picking := [Some []];
                 cv_parameters := None |} in
  let selection := {| selection_key := "height";
                      selection_operation := py_max |} in
  let min_voltage := Finite (-1) in
  let max_voltage := Finite 1 in
  select_peak_of_interest self [] selection 0 = Raise ValueError
  /\ exists table row,
       cv_parameters_table self [] selection min_voltage max_voltage
                           (Finite (1 # 10)) = Ok table
       /\ table !! 0%nat = Some row
       /\ row <> [max_voltage; max_voltage; min_voltage; max_voltage;
                  max_voltage].
Proof.
  split; [reflexivity|]. do 2 eexists.
  split; [reflexivity|]. split; [reflexivity|]. discriminate.
Qed.

(** C6, amended.  When filtering or selection raises [TypeError] or
    [ValueError] for an iteration, the handler leaves the table as it
    is and the loop goes on with the next iteration; in the table of a
    completed step the row of that iteration holds the zeros it was
    created with; and the step completes whenever no iteration raises an
    exception of another class. *)
Theorem failed_selection_leaves_zero_row
    (self : analyzer) (filters : list filter_clause)
    (selection : selection_clause)
    (min_voltage max_voltage additional_voltage : pyfloat)
    (i : nat) (e : exn) :
  (i < length (_raw_data self))%nat ->
  select_peak_of_interest self filters selection i = Raise e ->
  caught e ->
  (forall table,
      cv_parameters_turn self filters selection min_voltage max_voltage
                         additional_voltage table i = Ok table)
  /\ (forall table,
        cv_parameters_table self filters selection min_voltage max_voltage
                            additional_voltage = Ok table ->
        table !! i = Some (replicate 5 (Finite 0)))
  /\ ((forall j e',
         (j < length (_raw_data self))%nat ->
         select_peak_of_interest self filters selection j = Raise e' ->
         caught e') ->
      exists table,
        cv_parameters_table self filters selection min_voltage max_voltage
                            additional_voltage = Ok table).
Proof.
  intros Hi Hsel Hc. split; [|split].
  - intros table. exact (turn_caught _ _ _ _ _ _ table i e Hsel Hc).
  - intros table H. unfold cv_parameters_table in H.
    rewrite (loop_keeps_row _ _ _ _ _ _ _ _ _ i e Hsel Hc H).
    now apply zeros_row.
  - intros Hall. apply loop_completes. intros j e' Hj.
    apply Hall. apply list_elem_of_In, in_seq in Hj. lia.
Qed.

Lemma failed_selection_leaves_zero_row_witness :
  let self := {| _raw_data := [[]]; peak_picking := [Some []];
                 cv_parameters := None |} in
  let selection := {| selection_key := "height";
                      selection_operation := py_max |} in
  exists table,
    cv_parameters_table self [] selection (Finite (-1)) (Finite 1)
                        (Finite (1 # 10)) = Ok table
    /\ table !! 0%nat = Some (replicate 5 (Finite 0)).
Proof.
  intros self selection.
  destruct (failed_selection_leaves_zero_row self [] selection (Finite (-1))
              (Finite 1) (Finite (1 # 10)) 0 ValueError)
    as (_ & Hrow & Hdone).
  - simpl. lia.
  - reflexivity.
  - right. reflexivity.
  - destruct Hdone as [table Htable].
    + intros j e' Hj. destruct j; [|simpl in Hj; lia].
      intros [= <-]. right. reflexivity.
    + exists table. split; [exact Htable | exact (Hrow table Htable)].
Defined.

End CVParametersFacts.

(** ** WorkflowManager.py *)

Module WorkflowFacts.
Import Py PyFloat WorkflowData WorkflowManager WorkflowStatements PyFacts.
#[local] Open Scope Q_scope.

(** *** Updates of the parameters *)

Lemma update_parameters_keyword (update_settings : list update_setting)
    (parameters : gmap string value) (previous_results : result_dict)
    (keyword : string) (e : exn) :
  resolves_to update_settings previous_results keyword ->
  _exception_keywords keyword = Some e ->
  _update_parameters update_settings parameters previous_results = Raise e.
Proof.
  intros (before & u & after & -> & Hu & Hbefore) Hkw.
  unfold _update_parameters. revert parameters.
  induction Hbefore as [|u' before (v & Hv & Hno) _ IH]; intros parameters.
  - cbn [app rfold]. rewrite Hu. bind_step. now rewrite Hkw.
  - cbn [app rfold]. rewrite Hv. bind_step.
    destruct v as [s| |]; try apply IH.
    rewrite (Hno s eq_refl). apply IH.
Qed.

(** *** Results of steps *)

Lemma step_entry_insert (result : result_dict) (step_name : string)
    (a : gmap string value) :
  step_entry (<[step_name := EntryAnalysis a]> result) step_name = Some a.
Proof. unfold step_entry. now rewrite lookup_insert_eq. Qed.

Lemma step_entry_insert_ne (result : result_dict) (name other : string)
    (a : gmap string value) :
  name <> other ->
  step_entry (<[name := EntryAnalysis a]> result) other
  = step_entry result other.
Proof. intros H. unfold step_entry. now rewrite lookup_insert_ne. Qed.

(** The dictionary that a sample run starts with holds no result of a
    step. *)
Lemma step_entry_initial (sample_name : string) (w : workflow)
    (step_name : string) :
  step_entry (initial_result sample_name w) step_name = None.
Proof.
  unfold step_entry, initial_result.
  destruct (decide ("Workflow"%string = step_name)) as [<-|H1];
    [now rewrite lookup_insert_eq|].
  rewrite lookup_insert_ne by done.
  destruct (decide ("Sample Name"%string = step_name)) as [<-|H2];
    [now rewrite lookup_insert_eq|].
  now rewrite lookup_insert_ne by done.
Qed.

Lemma resolves_to_nonempty (update_settings : list update_setting)
    (previous_results : result_dict) (keyword : string) :
  resolves_to update_settings previous_results keyword ->
  update_settings <> [].
Proof. intros (before & u & after & -> & _). now destruct before. Qed.

Section WithDevices.
Context {World : Type} (D : devices World).

(** *** Running the monad *)

Lemma bind_run {A B} (m : M World A) (k : A -> M World B) (s : state World) :
  (m ≫= k) s = match m s with
               | (s1, Ok a) => k a s1
               | (s1, Raise e) => (s1, Raise e)
               end.
Proof. reflexivity. Qed.

Lemma bind_run_ok {A B} (m : M World A) (k : A -> M World B)
    (s s' : state World) (b : B) :
  (m ≫= k) s = (s', Ok b) ->
  exists s1 a, m s = (s1, Ok a) /\ k a s1 = (s', Ok b).
Proof.
  rewrite bind_run. destruct (m s) as [s1 [a|e]]; [eauto | discriminate].
Qed.

Lemma emit_run (ev : event) (s : state World) :
  emit ev s = (logged s [ev], Ok tt).
Proof. reflexivity. Qed.

#[local] Ltac run_step := rewrite bind_run; rewrite ?emit_run; cbv beta iota.

Lemma logged_logged (s : state World) (a b : list event) :
  logged (logged s a) b = logged s (a ++ b).
Proof. unfold logged. simpl. now rewrite app_assoc. Qed.

(** *** Which events a method records *)

Lemma quiet_refl (s : state World) : quiet s s.
Proof. exists []. now rewrite app_nil_r. Qed.

Lemma quiet_trans (s1 s2 s3 : state World) :
  quiet s1 s2 -> quiet s2 s3 -> quiet s1 s3.
Proof.
  intros (a & Ha & Hfa) (b & Hb & Hfb). exists (a ++ b). split.
  - now rewrite Hb, Ha, app_assoc.
  - now rewrite List.filter_app, Hfa, Hfb.
Qed.

Lemma quiet_logged (s : state World) (evs : list event) :
  List.filter is_wash evs = [] -> quiet s (logged s evs).
Proof. intros H. now exists evs. Qed.

Lemma quiet_ret {A} (a : A) : quiet_method (mret a : M World A).
Proof. intros s s' r [= <- _]. apply quiet_refl. Qed.

Lemma quiet_raise {A} (e : exn) : quiet_method (raise e : M World A).
Proof. intros s s' r [= <- _]. apply quiet_refl. Qed.

Lemma quiet_lift {A} (x : result A) : quiet_method (lift x : M World A).
Proof. intros s s' r [= <- _]. apply quiet_refl. Qed.

Lemma quiet_emit (ev : event) :
  is_wash ev = false -> quiet_method (emit ev : M World unit).
Proof.
  intros H s s' r [= <- _]. apply quiet_logged. simpl. now rewrite H.
Qed.

Lemma quiet_call {A} (ev : event) (f : World -> World * result A) :
  is_wash ev = false -> quiet_method (call ev f).
Proof.
  intros H s s' r Hc. unfold call in Hc. destruct (f (world s)) as [w x].
  inversion Hc; subst. exists [ev]. split; [reflexivity|].
  simpl. now rewrite H.
Qed.

Lemma quiet_bind {A B} (m : M World A) (k : A -> M World B) :
  quiet_method m -> (forall a, quiet_method (k a)) -> quiet_method (m ≫= k).
Proof.
  intros Hm Hk s s' r H. rewrite bind_run in H.
  destruct (m s) as [s1 [a|e]] eqn:Hms.
  - exact (quiet_trans _ _ _ (Hm _ _ _ Hms) (Hk a _ _ _ H)).
  - inversion H; subst. exact (Hm _ _ _ Hms).
Qed.

Lemma run_measurement_quiet (sample_name step_name : string)
    (results : result_dict) (kwargs : measure_kwargs) :
  quiet_method (run_measurement D sample_name step_name results kwargs).
Proof.
  unfold run_measurement. apply quiet_bind.
  { destruct (update_parameters kwargs); [apply quiet_ret | apply quiet_lift]. }
  intros parameters. apply quiet_bind; [now apply quiet_call|].
  intros raw. apply quiet_bind; [now apply quiet_call|].
  intros a. apply quiet_ret.
Qed.

Lemma execute_step_quiet (sample_name step_name : string)
    (previous_results : result_dict) (details : step_details) :
  quiet_method (_execute_step D sample_name step_name previous_results
                              details).
Proof.
  unfold _execute_step. apply quiet_bind; [now apply quiet_emit|].
  intros _. destruct details as [kwargs|volume factor|task].
  - apply run_measurement_quiet.
  - unfold _dilute_cell. simpl. apply quiet_bind; [apply quiet_raise|].
    intros _. apply quiet_ret.
  - apply quiet_raise.
Qed.

Lemma execute_steps_quiet (sample_name : string)
    (steps : list (string * step_details)) (result : result_dict) :
  quiet_method (execute_steps D sample_name steps result).
Proof.
  revert result. induction steps as [|[step details] rest IH]; intros result.
  - apply quiet_ret.
  - intros s s' r H. cbn [execute_steps] in H.
    destruct (_execute_step D sample_name step result details s)
      as [s1 [result1|e]] eqn:Hstep.
    + exact (quiet_trans _ _ _ (execute_step_quiet _ _ _ _ _ _ _ Hstep)
                         (IH _ _ _ _ H)).
    + pose proof (execute_step_quiet _ _ _ _ _ _ _ Hstep) as Hq.
      destruct e; try (inversion H; subst; exact Hq).
      rewrite bind_run, emit_run in H.
      refine (quiet_trans _ _ _ Hq (quiet_trans _ _ _ _ (IH _ _ _ _ H))).
      now apply quiet_logged.
Qed.

Lemma enter_cell_quiet (sample_name : string) (sample_location : Z)
    (w : workflow) :
  quiet_method (enter_cell D sample_name sample_location w).
Proof.
  unfold enter_cell, fill_cell, sampler.
  repeat (apply quiet_bind; [first [now apply quiet_emit | now apply quiet_call]
                            | intros _]).
  now apply quiet_emit.
Qed.

(** The events of a teardown that returns. *)
Lemma leave_cell_trace (sample_location : Z) (w : workflow)
    (s s' : state World) :
  leave_cell D sample_location w s = (s', Ok tt) ->
  trace s' = trace s ++ teardown_events sample_location w.
Proof.
  unfold leave_cell, empty_cell, teardown_events, teardown_calls, sampler.
  do 2 run_step. destruct (discard_sample w).
  - run_step. unfold call at 1. cbn [world trace logged].
    match goal with
    | |- context [sampling_system D ?c ?x] =>
        destruct (sampling_system D c x) as [w1 [[]|e]]; [|discriminate]
    end.
    unfold call. cbn [world trace].
    match goal with
    | |- context [sampling_system D ?c ?x] =>
        destruct (sampling_system D c x) as [w2 r]
    end.
    intros [= <- _]. cbn [trace]. now rewrite <- !app_assoc.
  - run_step. unfold mret, workflow_ret, ret. unfold call.
    cbn [world trace logged].
    match goal with
    | |- context [sampling_system D ?c ?x] =>
        destruct (sampling_system D c x) as [w2 r]
    end.
    intros [= <- _]. cbn [trace]. now rewrite <- !app_assoc.
Qed.

Lemma teardown_events_wash (sample_location : Z) (w : workflow) :
  List.filter is_wash (teardown_events sample_location w)
  = teardown_calls sample_location w.
Proof.
  unfold teardown_events, teardown_calls. now destruct (discard_sample w).
Qed.

(** *** The sample run *)

Lemma measure_sample_phases (sample_name : string) (sample_location : Z)
    (w : workflow) (s0 : state World) :
  _measure_sample D sample_name sample_location w s0
  = match enter_cell D sample_name sample_location w s0 with
    | (s1, Ok _) =>
        try_finally (execute_steps D sample_name (steps w)
                                   (initial_result sample_name w))
                    (leave_cell D sample_location w) s1
    | (s1, Raise e) => (s1, Raise e)
    end.
Proof.
  unfold _measure_sample, _sample_in_cell, enter_cell, leave_cell.
  repeat run_step.
  match goal with
  | |- context [fill_cell D ?a ?b ?c ?d ?x] =>
      now destruct (fill_cell D a b c d x) as [s1 [[]|e]]
  end.
Qed.

(** The guarantee of the context manager: however the loop over the
    steps ends, the teardown runs after it, once, and the outcome of the
    loop is the outcome of the sample run. *)
Lemma measure_sample_run (sample_name : string) (sample_location : Z)
    (w : workflow) (s0 s1 s2 s3 : state World) (r : result result_dict) :
  enter_cell D sample_name sample_location w s0 = (s1, Ok tt) ->
  execute_steps D sample_name (steps w) (initial_result sample_name w) s1
  = (s2, r) ->
  leave_cell D sample_location w s2 = (s3, Ok tt) ->
  _measure_sample D sample_name sample_location w s0 = (s3, r)
  /\ trace s3 = trace s2 ++ teardown_events sample_location w
  /\ exists evs, trace s3 = trace s0 ++ evs
                 /\ List.filter is_wash evs
                    = teardown_calls sample_location w.
Proof.
  intros Henter Hsteps Hleave.
  pose proof (leave_cell_trace _ _ _ _ Hleave) as Htrace.
  split; [|split; [exact Htrace|]].
  - rewrite measure_sample_phases, Henter. unfold try_finally.
    now rewrite Hsteps, Hleave.
  - destruct (quiet_trans _ _ _ (enter_cell_quiet _ _ _ _ _ _ Henter)
                          (execute_steps_quiet _ _ _ _ _ _ Hsteps))
      as (evs & Hevs & Hquiet).
    exists (evs ++ teardown_events sample_location w). split.
    + now rewrite Htrace, Hevs, app_assoc.
    + now rewrite List.filter_app, Hquiet, teardown_events_wash.
Qed.

(** The two ways in which the teardown is not what the caller sees
    last: an exception while the cell is filled is raised before the
    [try], and the teardown does not run; an exception of the teardown
    itself takes the place of the outcome of the steps. *)
Lemma fill_failure_skips_teardown (sample_name : string)
    (sample_location : Z) (w : workflow) (s0 s1 : state World) (e : exn) :
  enter_cell D sample_name sample_location w s0 = (s1, Raise e) ->
  _measure_sample D sample_name sample_location w s0 = (s1, Raise e).
Proof. intros H. now rewrite measure_sample_phases, H. Qed.

Lemma teardown_failure_replaces_outcome (sample_name : string)
    (sample_location : Z) (w : workflow) (s0 s1 s2 s3 : state World)
    (r : result result_dict) (e : exn) :
  enter_cell D sample_name sample_location w s0 = (s1, Ok tt) ->
  execute_steps D sample_name (steps w) (initial_result sample_name w) s1
  = (s2, r) ->
  leave_cell D sample_location w s2 = (s3, Raise e) ->
  _measure_sample D sample_name sample_location w s0 = (s3, Raise e).
Proof.
  intros Henter Hsteps Hleave.
  rewrite measure_sample_phases, Henter. unfold try_finally.
  now rewrite Hsteps, Hleave.
Qed.

(** *** The loop over the steps *)

Lemma reaches_execute_steps (sample_name : string)
    (before rest : list (string * step_details))
    (result result' : result_dict) (s s' : state World) :
  reaches D sample_name before result s result' s' ->
  execute_steps D sample_name (before ++ rest) result s
  = execute_steps D sample_name rest result' s'.
Proof.
  induction 1 as [|step details before result s result1 s1 result' s' Hstep _ IH
                  |step details before result s s1 result' s' Hstep _ IH];
    [reflexivity| |].
  - cbn [app execute_steps]. now rewrite Hstep.
  - cbn [app execute_steps]. rewrite Hstep. now rewrite bind_run, emit_run.
Qed.

(** The loop catches the two control signals and nothing else. *)
Lemma execute_steps_failing_step (sample_name step : string)
    (details : step_details) (rest : list (string * step_details))
    (result : result_dict) (s s1 : state World) (e : exn) :
  _execute_step D sample_name step result details s = (s1, Raise e) ->
  e <> SkipExecution -> e <> StopExecution ->
  execute_steps D sample_name ((step, details) :: rest) result s
  = (s1, Raise e).
Proof.
  intros Hstep Hskip Hstop. cbn [execute_steps]. rewrite Hstep.
  now destruct e.
Qed.

Lemma execute_steps_never_control (sample_name : string)
    (steps : list (string * step_details)) (result : result_dict)
    (s s' : state World) (e : exn) :
  execute_steps D sample_name steps result s = (s', Raise e) ->
  e <> SkipExecution /\ e <> StopExecution.
Proof.
  revert result s. induction steps as [|[step details] rest IH];
    intros result s H; [discriminate|].
  cbn [execute_steps] in H.
  destruct (_execute_step D sample_name step result details s)
    as [s1 [result1|e1]]; [exact (IH _ _ H)|].
  destruct e1; try (inversion H; subst; split; discriminate).
  rewrite bind_run, emit_run in H. exact (IH _ _ H).
Qed.

(** A step that returns was a measurement and has stored its analysis
    under its name. *)
Lemma execute_step_ok (sample_name step_name : string)
    (previous_results result : result_dict) (details : step_details)
    (s s' : state World) :
  _execute_step D sample_name step_name previous_results details s
  = (s', Ok result) ->
  exists kwargs a,
    details = MeasureStep kwargs
    /\ result = <[step_name := EntryAnalysis a]> previous_results.
Proof.
  intros H. unfold _execute_step in H.
  apply bind_run_ok in H as (s1 & [] & _ & H).
  destruct details as [kwargs|volume factor|task].
  - unfold run_measurement in H.
    apply bind_run_ok in H as (s2 & p & _ & H).
    apply bind_run_ok in H as (s3 & raw & _ & H).
    apply bind_run_ok in H as (s4 & a & _ & H).
    inversion H; subst. eauto.
  - unfold _dilute_cell in H. cbn [dilute_task] in H.
    apply bind_run_ok in H as (s2 & x & Hr & _). discriminate.
  - discriminate.
Qed.

(** A measurement whose update resolves to a keyword records that it
    was started, and nothing else happens. *)
Lemma execute_step_keyword (sample_name step_name keyword : string)
    (previous_results : result_dict) (kwargs : measure_kwargs)
    (s : state World) (e : exn) :
  resolves_to (update_parameters kwargs) previous_results keyword ->
  _exception_keywords keyword = Some e ->
  _execute_step D sample_name step_name previous_results (MeasureStep kwargs)
                s
  = (logged s [LogInfo (NowExecuting step_name)], Raise e).
Proof.
  intros Hres Hkw. unfold _execute_step. rewrite bind_run, emit_run.
  unfold run_measurement. rewrite bind_run.
  pose proof (resolves_to_nonempty _ _ _ Hres) as Hne.
  rewrite (update_parameters_keyword _ (parameters kwargs) _ _ _ Hres Hkw).
  now destruct (update_parameters kwargs).
Qed.

End WithDevices.

(** One statement of a method. *)
Ltac run_step := rewrite bind_run; rewrite ?emit_run; cbv beta iota.

End WorkflowFacts.

Module WorkflowTheorems.
Import Py PyFloat WorkflowData WorkflowManager WorkflowStatements PyFacts.
Import WorkflowFacts.
#[local] Open Scope Q_scope.

Lemma distinct_names (a b c : string) :
  NoDup [a; b; c] -> a <> b /\ a <> c /\ b <> c.
Proof.
  rewrite !NoDup_cons, !not_elem_of_cons. tauto.
Qed.

Section WithDevices.
Context {World : Type} (D : devices World).


(** C2.  Three steps; the first returns, the update of the second
    resolves to ["SKIP"], the third returns, and so does the teardown.
    Then the sample run returns the results of the third step: they hold
    the analyses of the first and of the third step and no result of the
    second (and no entry at all under its name, unless the step bears
    the name of one of the two header entries); the second step has
    recorded two log lines and has not touched the devices; and the
    teardown has run, once, after the third step. *)
Theorem skip_aborts_only_the_current_step
    (sample_name : string) (sample_location : Z) (w : workflow)
    (step1 step2 step3 : string) (details1 details3 : step_details)
    (kwargs2 : measure_kwargs) (result1 result3 : result_dict)
    (s0 s1 s2 s3 s4 : state World) :
  steps w = [(step1, details1); (step2, MeasureStep kwargs2);
             (step3, details3)] ->
  NoDup [step1; step2; step3] ->
  enter_cell D sample_name sample_location w s0 = (s1, Ok tt) ->
  _execute_step D sample_name step1 (initial_result sample_name w) details1 s1
  = (s2, Ok result1) ->
  resolves_to (update_parameters kwargs2) result1 "SKIP" ->
  _execute_step D sample_name step3 result1 details3
                (logged s2 [LogInfo (NowExecuting step2);
                            LogInfo (WillBeSkipped step2)])
  = (s3, Ok result3) ->
  leave_cell D sample_location w s3 = (s4, Ok tt) ->
  _measure_sample D sample_name sample_location w s0 = (s4, Ok result3)
  /\ is_Some (step_entry result3 step1)
  /\ is_Some (step_entry result3 step3)
  /\ step_entry result3 step2 = None
  /\ (step2 <> "Sample Name"%string -> step2 <> "Workflow"%string ->
      result3 !! step2 = None)
  /\ trace s4 = trace s3 ++ teardown_events sample_location w
  /\ exists evs, trace s4 = trace s0 ++ evs
                 /\ List.filter is_wash evs
                    = teardown_calls sample_location w.
Proof.
  intros Hsteps Hnodup Henter Hstep1 Hskip Hstep3 Hleave.
  assert (execute_steps D sample_name (steps w)
                        (initial_result sample_name w) s1
          = (s3, Ok result3)) as Hloop.
  { rewrite Hsteps. cbn [execute_steps]. rewrite Hstep1.
    rewrite (execute_step_keyword D _ _ "SKIP" _ _ _ SkipExecution Hskip
                                  eq_refl).
    run_step. rewrite logged_logged. cbn [app]. now rewrite Hstep3. }
  destruct (measure_sample_run D _ _ _ _ _ _ _ _ Henter Hloop Hleave)
    as (Hrun & Htrace & Hwash).
  apply execute_step_ok in Hstep1 as (k1 & a1 & _ & ->).
  apply execute_step_ok in Hstep3 as (k3 & a3 & _ & ->).
  destruct (distinct_names _ _ _ Hnodup) as (H12 & H13 & H23).
  split; [exact Hrun|].
  split; [rewrite step_entry_insert_ne, step_entry_insert by done; eauto|].
  split; [rewrite step_entry_insert; eauto|].
  split; [rewrite !step_entry_insert_ne by done; apply step_entry_initial|].
  split; [|now split].
  intros Hname1 Hname2. unfold initial_result.
  rewrite !lookup_insert_ne by (try done; congruence). done.
Qed.

(** C3.  Three steps; the first returns, the update of the second
    resolves to ["STOP"], and the teardown returns.  Then the sample run
    returns the results as the first step left them: they hold its
    analysis and no result of the second or of the third step (and no
    entry at all under their names, unless one of them bears the name of
    a header entry); after the first step only the log line of the
    second step and the teardown, once, have been recorded. *)
Theorem stop_aborts_the_remaining_steps
    (sample_name : string) (sample_location : Z) (w : workflow)
    (step1 step2 step3 : string) (details1 details3 : step_details)
    (kwargs2 : measure_kwargs) (result1 : result_dict)
    (s0 s1 s2 s4 : state World) :
  steps w = [(step1, details1); (step2, MeasureStep kwargs2);
             (step3, details3)] ->
  NoDup [step1; step2; step3] ->
  enter_cell D sample_name sample_location w s0 = (s1, Ok tt) ->
  _execute_step D sample_name step1 (initial_result sample_name w) details1 s1
  = (s2, Ok result1) ->
  resolves_to (update_parameters kwargs2) result1 "STOP" ->
  leave_cell D sample_location w (logged s2 [LogInfo (NowExecuting step2)])
  = (s4, Ok tt) ->
  _measure_sample D sample_name sample_location w s0 = (s4, Ok result1)
  /\ is_Some (step_entry result1 step1)
  /\ step_entry result1 step2 = None
  /\ step_entry result1 step3 = None
  /\ (forall step, step = step2 \/ step = step3 ->
                   step <> "Sample Name"%string -> step <> "Workflow"%string ->
                   result1 !! step = None)
  /\ trace s4 = trace s2 ++ [LogInfo (NowExecuting step2)]
                ++ teardown_events sample_location w
  /\ exists evs, trace s4 = trace s0 ++ evs
                 /\ List.filter is_wash evs
                    = teardown_calls sample_location w.
Proof.
  intros Hsteps Hnodup Henter Hstep1 Hstop Hleave.
  assert (execute_steps D sample_name (steps w)
                        (initial_result sample_name w) s1
          = (logged s2 [LogInfo (NowExecuting step2)], Ok result1)) as Hloop.
  { rewrite Hsteps. cbn [execute_steps]. rewrite Hstep1.
    now rewrite (execute_step_keyword D _ _ "STOP" _ _ _ StopExecution Hstop
                                      eq_refl). }
  destruct (measure_sample_run D _ _ _ _ _ _ _ _ Henter Hloop Hleave)
    as (Hrun & Htrace & Hwash).
  apply execute_step_ok in Hstep1 as (k1 & a1 & _ & ->).
  destruct (distinct_names _ _ _ Hnodup) as (H12 & H13 & H23).
  split; [exact Hrun|].
  split; [rewrite step_entry_insert; eauto|].
  split; [rewrite step_entry_insert_ne by done; apply step_entry_initial|].
  split; [rewrite step_entry_insert_ne by done; apply step_entry_initial|].
  split; [|split; [|exact Hwash]].
  - intros step Hstep Hname1 Hname2. unfold initial_result.
    rewrite !lookup_insert_ne by (try done; destruct Hstep; congruence).
    done.
  - rewrite Htrace. cbn [logged trace]. now rewrite <- app_assoc.
Qed.

End WithDevices.


(** The analysis of the first step reports ["SKIP"]. *)
Lemma skip_aborts_only_the_current_step_witness :
  let D := example_devices "SKIP" in
  let w := example_workflow "CV" "CV" in
  exists s4 result,
    _measure_sample D "sample" 9 w start = (s4, Ok result)
    /\ result !! "first"%string = Some (EntryAnalysis {["next" := Str "SKIP"]})
    /\ result !! "second"%string = None
    /\ result !! "third"%string = Some (EntryAnalysis {["done" := Num 1]})
    /\ world s4 = 2%nat
    /\ List.filter is_wash (trace s4)
       = [Sampler (wash_autosampler_position 9); Sampler (wash_cell 5 2)].
Proof.
  intros D w.
  set (s1 := (enter_cell D "sample" 9 w start).1).
  set (r0 := initial_result "sample" w).
  set (r1 := <["first"%string := EntryAnalysis {["next" := Str "SKIP"]}]> r0).
  set (s2 := (_execute_step D "sample" "first" r0
                            (example_measure "SWV" []) s1).1).
  set (s2' := logged s2 [LogInfo (NowExecuting "second");
                         LogInfo (WillBeSkipped "second")]).
  set (r3 := <["third"%string := EntryAnalysis {["done" := Num 1]}]> r1).
  set (s3 := (_execute_step D "sample" "third" r1
                            (example_measure "CV" []) s2').1).
  set (s4 := (leave_cell D 9 w s3).1).
  set (kwargs2 :=
         {| technique := "CV"; parameters := ∅;
            update_parameters :=
              [{| parameter := "Voltage Profile";
                  from_measurement := "first"; key := "next" |}];
            analysis_settings := ∅; channel := None |}).
  destruct (skip_aborts_only_the_current_step D "sample" 9 w
              "first" "second" "third"
              (example_measure "SWV" []) (example_measure "CV" [])
              kwargs2 r1 r3 start s1 s2 s3 s4)
    as (Hrun & _ & _ & _ & Hsecond & _).
  - reflexivity.
  - apply NoDup_cons. split; [|apply NoDup_cons; split;
                               [|apply NoDup_singleton]];
      rewrite ?not_elem_of_cons; repeat split; try discriminate;
      apply not_elem_of_nil.
  - vm_compute. reflexivity.
  - vm_compute. reflexivity.
  - exists [], {| parameter := "Voltage Profile"; from_measurement := "first";
                  key := "next" |}, [].
    split; [reflexivity|]. split; [vm_compute; reflexivity | constructor].
  - vm_compute. reflexivity.
  - vm_compute. reflexivity.
  - exists s4, r3. split; [exact Hrun|].
    split; [vm_compute; reflexivity|].
    split; [apply Hsecond; discriminate|].
    repeat split; vm_compute; reflexivity.
Defined.

(** The analysis of the first step reports ["STOP"]. *)
Lemma stop_aborts_the_remaining_steps_witness :
  let D := example_devices "STOP" in
  let w := example_workflow "CV" "CV" in
  exists s4 result,
    _measure_sample D "sample" 9 w start = (s4, Ok result)
    /\ result !! "first"%string = Some (EntryAnalysis {["next" := Str "STOP"]})
    /\ result !! "second"%string = None
    /\ result !! "third"%string = None
    /\ world s4 = 1%nat
    /\ List.filter is_wash (trace s4)
       = [Sampler (wash_autosampler_position 9); Sampler (wash_cell 5 2)].
Proof.
  intros D w.
  set (s1 := (enter_cell D "sample" 9 w start).1).
  set (r0 := initial_result "sample" w).
  set (r1 := <["first"%string := EntryAnalysis {["next" := Str "STOP"]}]> r0).
  set (s2 := (_execute_step D "sample" "first" r0
                            (example_measure "SWV" []) s1).1).
  set (s4 := (leave_cell D 9 w
                (logged s2 [LogInfo (NowExecuting "second")])).1).
  set (kwargs2 :=
         {| technique := "CV"; parameters := ∅;
            update_parameters :=
              [{| parameter := "Voltage Profile";
                  from_measurement := "first"; key := "next" |}];
            analysis_settings := ∅; channel := None |}).
  destruct (stop_aborts_the_remaining_steps D "sample" 9 w
              "first" "second" "third"
              (example_measure "SWV" []) (example_measure "CV" [])
              kwargs2 r1 start s1 s2 s4)
    as (Hrun & _ & _ & _ & Hnone & _).
  - reflexivity.
  - apply NoDup_cons. split; [|apply NoDup_cons; split;
                               [|apply NoDup_singleton]];
      rewrite ?not_elem_of_cons; repeat split; try discriminate;
      apply not_elem_of_nil.
  - vm_compute. reflexivity.
  - vm_compute. reflexivity.
  - exists [], {| parameter := "Voltage Profile"; from_measurement := "first";
                  key := "next" |}, [].
    split; [reflexivity|]. split; [vm_compute; reflexivity | constructor].
  - vm_compute. reflexivity.
  - exists s4, r1. split; [exact Hrun|].
    split; [vm_compute; reflexivity|].
    split; [apply Hnone; [now left | discriminate..]|].
    split; [apply Hnone; [now right | discriminate..]|].
    repeat split; vm_compute; reflexivity.
Defined.

End WorkflowTheorems.
